(** * The author-tools HTTP API ([at/api.py]) as a shallow embedding

    The route handlers of [at.api] are embedded as computations in a small
    monad that records every call to a collaborator (converters, validators,
    the staging store, the network) in a trace and that has Python's two ways
    of leaving a function early: [return] and a raised exception.

    The collaborators themselves ([at.utils.file], [at.utils.net],
    [at.utils.processor], ...) are not part of the sources at hand; their
    behaviour during a request is given by an environment [Env], one field
    per imported function.  The handlers are the bodies of the decorated
    view functions: [require_api_key] (authentication) runs before them and
    is outside this development. *)

From stdpp Require Import gmap strings list fin_maps.
From Stdlib Require Import Ascii String ZArith Lia.

Local Open Scope Z_scope.

(** ** Python string operations used by the handlers *)

Module PyString.


(** Characters are code points below 256; [str.isspace] on those. *)
Definition is_space (c : ascii) : bool :=
  let n := nat_of_ascii c in
  ((9 <=? n) && (n <=? 13) || (28 <=? n) && (n <=? 32)
   || (n =? 133) || (n =? 160))%nat.

Fixpoint lstrip (s : string) : string :=
  match s with
  | EmptyString => EmptyString
  | String c s' => if is_space c then lstrip s' else s
  end.

Fixpoint rstrip (s : string) : string :=
  match s with
  | EmptyString => EmptyString
  | String c s' =>
      match rstrip s' with
      | EmptyString => if is_space c then EmptyString else String c EmptyString
      | r => String c r
      end
  end.

(** [s.strip()] *)
Definition strip (s : string) : string := rstrip (lstrip s).

(** [s.split(sep)] for a one-character separator: never the empty list. *)
Fixpoint split (sep : ascii) (s : string) : list string :=
  match s with
  | EmptyString => [EmptyString]
  | String c s' =>
      if Ascii.eqb c sep then EmptyString :: split sep s'
      else match split sep s' with
           | [] => [String c EmptyString]
           | h :: t => String c h :: t
           end
  end.

(** [l[-1]] on a list of strings known to be non-empty. *)
Definition last_item (l : list string) : string := List.last l EmptyString.

(** [p] is an initial segment of [s] ([s.startswith(p)]). *)
Fixpoint starts_with (p s : string) : bool :=
  match p, s with
  | EmptyString, _ => true
  | String a p', String b s' => Ascii.eqb a b && starts_with p' s'
  | String _ _, EmptyString => false
  end.

(** The scan of [str.replace] for a non-empty [old]: [skip] characters of
    a match that has just been replaced are still to be passed over. *)
Fixpoint replace_go (old new : string) (skip : nat) (s : string) : string :=
  match s with
  | EmptyString => EmptyString
  | String c s' =>
      match skip with
      | S k => replace_go old new k s'
      | O =>
          if starts_with old s
          then new +:+ replace_go old new (String.length old - 1) s'
          else String c (replace_go old new 0 s')
      end
  end.

(** With an empty [old], Python puts [new] before every character and at
    the end. *)
Fixpoint interleave (new s : string) : string :=
  match s with
  | EmptyString => EmptyString
  | String c s' => String c (new +:+ interleave new s')
  end.

(** [s.replace(old, new)]: every occurrence met by one left-to-right scan,
    the scan resuming after each replaced occurrence. *)
Definition replace (s old new : string) : string :=
  match old with
  | EmptyString => new +:+ interleave new s
  | String _ _ => replace_go old new 0 s
  end.

(** [p in s] *)
Fixpoint contains (p s : string) : bool :=
  starts_with p s
  || match s with
     | EmptyString => false
     | String _ s' => contains p s'
     end.

Fixpoint concat (l : list string) : string :=
  match l with
  | [] => EmptyString
  | x :: l' => x +:+ concat l'
  end.

Fixpoint drop (n : nat) (s : string) : string :=
  match n, s with
  | O, _ => s
  | S n', String _ s' => drop n' s'
  | S _, EmptyString => EmptyString
  end.

End PyString.

(** ** Requests, responses and exceptions *)

(** An uploaded part ([werkzeug.datastructures.FileStorage]). *)
Record FileStorage := { fs_filename : string; fs_content : string }.

(** [bool(file)] is [bool(file.filename)] for a [FileStorage]. *)
Definition file_truthy (file : FileStorage) : bool :=
  negb (String.eqb (fs_filename file) "").

(** [request.values] and [request.files]; the handlers only ever ask for the
    first value of a key. *)
Record Request := {
  values : gmap string string;
  files : gmap string FileStorage
}.

(** The values [request.values.get(key, default)] can give the handlers. *)
Inductive pyval :=
| VStr (s : string)
| VBool (b : bool).

Definition truthy (v : pyval) : bool :=
  match v with
  | VStr s => negb (String.eqb s "")
  | VBool b => b
  end.

(** [request.values.get(key, default)] *)
Definition values_get (req : Request) (key : string) (default : pyval) : pyval :=
  match values req !! key with
  | Some v => VStr v
  | None => default
  end.

(** [request.values.get(key, default)] with a string default. *)
Definition values_get_str (req : Request) (key default : string) : string :=
  match values req !! key with
  | Some v => v
  | None => default
  end.

#[local] Unset Elimination Schemes.
Inductive json :=
| JNull
| JBool (b : bool)
| JNum (n : Z)
| JStr (s : string)
| JList (l : list json)
| JDict (kv : list (string * json)).
#[local] Set Elimination Schemes.

Inductive body :=
| Json (j : json)                       (* jsonify(...) *)
| PlainText (s : string)                (* make_response(output), text/plain *)
| Html (s : string)                     (* a str returned by the view *)
| Attachment (directory name : string)  (* the file [name] of [directory], as a download *).

Record Response := { resp_body : body; resp_status : Z }.

Definition BAD_REQUEST : Z := 400.

(** The status Flask gives a view result that carries none. *)
Definition OK : Z := 200.

(** [jsonify(error=msg)] *)
Definition json_error (msg : string) : body := Json (JDict [("error", JStr msg)]).

(** The exception classes the handlers name, the one Python raises for a
    local read before assignment, werkzeug's [NotFound], which
    [send_from_directory] raises for a file that is missing or outside the
    directory and which Flask answers with status 404, and the rest. *)
Inductive exn_class :=
| KramdownError | MmarkError | TextError | XML2RFCError | IddiffError
| SvgCheckError | DownloadError | InvalidURL | LatestDraftNotFound
| TextProcessingError | UnboundLocalError | NotFound | OtherError.

#[global] Instance exn_class_eq_dec : EqDecision exn_class.
Proof. solve_decision. Defined.

(** An exception: its class and [str(e)]. *)
Record exn := Exn { exn_cls : exn_class; exn_str : string }.

(** ** Calls to collaborators *)

Inductive level := DEBUG | INFO | ERROR.

(** What follows [doc, dt_latest_url] in a call of [get_latest]: the call
    sites pass either [logger] alone or [original_draft, logger]. *)
Inductive latest_rest :=
| WithLogger
| WithOriginal (original_draft : option string).

Inductive event :=
| Log (lvl : level) (msg : string)
| CallProcessFile (file : FileStorage) (upload_dir : string)
| CallGetXml (filename : string)
| CallGetHtml (filename : string)
| CallGetText (filename : string)
| CallGetPdf (filename : string)
| CallValidateXml (filename : string)
| CallIsValidUrl (url : string) (allowed_domains : list string)
| CallGetLatest (doc dt_latest_url : string) (rest : latest_rest)
| CallGetTextIdFromUrl (url upload_dir : string)
| CallGetTextIdFromFile (file : FileStorage) (upload_dir : string)
| CallIdnits (filename verbose : string) (show_text : bool) (year : string)
    (submit_check : bool)
| CallIdDiff (old_draft new_draft : string) (table wdiff : bool)
| CallExtractAbnf (filename : string)
| CallSaveFileFromText (text upload_dir : string)
| CallParseAbnf (filename : string)
| CallSaveFile (file : FileStorage) (upload_dir : string)
| CallSvgCheck (filename : string).

(** Everything but logging reaches outside the handler. *)
Definition is_call (e : event) : bool :=
  match e with
  | Log _ _ => false
  | _ => true
  end.

(** The calls that run a converter of the pipeline. *)
Definition is_conversion (e : event) : bool :=
  match e with
  | CallProcessFile _ _ | CallGetXml _ | CallGetHtml _ | CallGetText _
  | CallGetPdf _ => true
  | _ => false
  end.

(** The application configuration and the imported functions, as they
    behave during one request: each is a function of its arguments, giving
    its value or the exception it raises.  The handlers pass [logger] on to
    most of them; it is left out.  [allowed_file], [get_file], [get_name]
    and [get_name_with_revision] only look at a name and leave no event;
    a call of any other function of [at.utils] is an event.  Flask's
    [send_from_directory(directory, path, as_attachment=True)] looks the
    file up and builds the response from it and from the request's headers,
    or raises; it ends the view and leaves no event either. *)
Record Env := {
  (* current_app.config *)
  UPLOAD_DIR : string;
  ALLOWED_DOMAINS : list string;
  DT_LATEST_DRAFT_URL : string;
  (* flask *)
  send_from_directory : string -> string -> exn + Response;
  (* at.utils.file *)
  allowed_file : string -> option string -> bool;
  get_file : string -> string;
  get_name : string -> option string;
  get_name_with_revision : string -> option string;
  save_file : FileStorage -> string -> exn + (string * string);
  save_file_from_text : string -> string -> exn + (string * string);
  (* at.utils.processor *)
  process_file : FileStorage -> string -> exn + (string * string);
  get_xml : string -> exn + string;
  get_html : string -> exn + string;
  get_text : string -> exn + string;
  get_pdf : string -> exn + string;
  (* at.utils.net *)
  is_valid_url : string -> list string -> exn + bool;
  get_latest : string -> string -> latest_rest -> exn + string;
  (* at.utils.text *)
  get_text_id_from_file : FileStorage -> string -> exn + (string * string);
  get_text_id_from_url : string -> string -> exn + (string * string);
  (* at.utils.validation *)
  validate_xml : string -> exn + json;
  get_idnits : string -> string -> bool -> string -> bool -> exn + string;
  get_svgcheck : string -> exn + (json * json);
  (* at.utils.iddiff *)
  get_id_diff : string -> string -> bool -> bool -> exn + string;
  (* at.utils.abnf *)
  extract_abnf : string -> exn + string;
  parse_abnf : string -> exn + (json * json)
}.

(** ** The monad of a view function *)

Inductive outcome (A : Type) :=
| Val (a : A)              (* the statement finished *)
| Returned (r : Response)  (* a [return] was executed *)
| Raised (e : exn)         (* an exception is propagating *).

Arguments Val {A} a.
Arguments Returned {A} r.
Arguments Raised {A} e.

Definition M (A : Type) : Type := outcome A * list event.

Definition ret {A} (a : A) : M A := (Val a, []).

Definition bind {A B} (m : M A) (k : A -> M B) : M B :=
  match m with
  | (Val a, t) => let '(o, t') := k a in (o, (t ++ t')%list)
  | (Returned r, t) => (Returned r, t)
  | (Raised e, t) => (Raised e, t)
  end.

Notation "x <- m ;; k" := (bind m (fun x => k))
  (at level 20, m at level 99, k at level 200).
Notation "' pat <- m ;; k" := (bind m (fun x => match x with pat => k end))
  (at level 20, pat pattern, m at level 99, k at level 200).
Notation "m ;; k" := (bind m (fun _ => k))
  (at level 100, k at level 200, right associativity).

Definition emit (e : event) : M unit := (Val tt, [e]).

Definition raise {A} (e : exn) : M A := (Raised e, []).

(** [return body, status] *)
Definition return_ {A} (b : body) (status : Z) : M A :=
  (Returned {| resp_body := b; resp_status := status |}, []).

(** [return f(...)] for a library function that builds the response or
    raises. *)
Definition return_from {A} (r : exn + Response) : M A :=
  match r with
  | inl x => raise x
  | inr a => (Returned a, [])
  end.

(** [logger.<lvl>(msg)] *)
Definition log (lvl : level) (msg : string) : M unit := emit (Log lvl msg).

(** A call to a collaborator: recorded, then its value or its exception. *)
Definition call {A} (e : event) (r : exn + A) : M A :=
  emit e ;;
  match r with
  | inl x => raise x
  | inr a => ret a
  end.

(** Reading a local variable that some branch may have left unassigned. *)
Definition read_local {A} (name : string) (v : option A) : M A :=
  match v with
  | Some a => ret a
  | None => raise (Exn UnboundLocalError name)
  end.

Fixpoint find_handler {A} (hs : list (exn_class * (exn -> M A))) (e : exn)
  : option (M A) :=
  match hs with
  | [] => None
  | (c, h) :: hs' =>
      if decide (exn_cls e = c) then Some (h e) else find_handler hs' e
  end.

(** [try: m  except C1 as e: h1 e  except C2 as e: h2 e ...]; the classes
    are unrelated, so a clause catches exactly its own class. *)
Definition try_except {A} (m : M A) (hs : list (exn_class * (exn -> M A))) : M A :=
  match m with
  | (Raised e, t) =>
      match find_handler hs e with
      | Some h => let '(o, t') := h in (o, (t ++ t')%list)
      | None => (Raised e, t)
      end
  | _ => m
  end.

(** [except C as e: return jsonify(error=text e), BAD_REQUEST] *)
Definition bad_request {A} (c : exn_class) (text : exn -> string)
  : exn_class * (exn -> M A) :=
  (c, fun e => return_ (json_error (text e)) BAD_REQUEST).

(** What the caller of a view function sees. *)
Inductive Result :=
| Responded (r : Response)
| Unhandled (e : exn).

Definition view (m : M Response) : Result * list event :=
  match m with
  | (Val r, t) => (Responded r, t)
  | (Returned r, t) => (Responded r, t)
  | (Raised e, t) => (Unhandled e, t)
  end.

(** What a computation emits and what it may [return]: every event
    satisfies [Pev], a returned response satisfies [Pret]. *)
Definition sat {A} (Pev : event -> Prop) (Pret : Response -> Prop) (m : M A)
  : Prop :=
  Forall Pev m.2 /\ forall r, m.1 = Returned r -> Pret r.

(** ** The view functions of [at/api.py] *)

Section Views.

Variable env : Env.

(** The three [except] clauses after [process_file] in [render] and
    [validate]. *)
Definition conversion_errors {A} : list (exn_class * (exn -> M A)) :=
  [ bad_request KramdownError (fun e => "kramdown-rfc error: " +:+ exn_str e);
    bad_request MmarkError (fun e => "mmark error: " +:+ exn_str e);
    bad_request TextError (fun e => "id2xml error: " +:+ exn_str e) ].

Definition xml2rfc_error {A} : list (exn_class * (exn -> M A)) :=
  [ bad_request XML2RFCError (fun e => "xml2rfc error: " +:+ exn_str e) ].

(** [POST /render/<format>] *)
Definition render_body (format : string) (req : Request) : M Response :=
  match files req !! "file" with
  | None =>
      log INFO "no input file" ;;
      return_ (json_error "No file") BAD_REQUEST
  | Some file =>
      if String.eqb (fs_filename file) "" then
        log INFO "filename missing" ;;
        return_ (json_error "Filename is missing") BAD_REQUEST
      else if file_truthy file && allowed_file env (fs_filename file) None then
        '(dir_path, filename) <-
          try_except
            (call (CallProcessFile file (UPLOAD_DIR env))
                  (process_file env file (UPLOAD_DIR env)))
            conversion_errors ;;
        xml_file <-
          try_except (call (CallGetXml filename) (get_xml env filename))
            xml2rfc_error ;;
        rendered_filename <-
          try_except
            (if String.eqb format "xml" then
               ret (get_file env xml_file)
             else if String.eqb format "html" then
               html_file <- call (CallGetHtml xml_file) (get_html env xml_file) ;;
               ret (get_file env html_file)
             else if String.eqb format "text" then
               text_file <- call (CallGetText xml_file) (get_text env xml_file) ;;
               ret (get_file env text_file)
             else if String.eqb format "pdf" then
               pdf_file <- call (CallGetPdf xml_file) (get_pdf env xml_file) ;;
               ret (get_file env pdf_file)
             else
               log INFO ("render format not supported: " +:+ format) ;;
               return_ (json_error "Render format not supported") BAD_REQUEST)
            xml2rfc_error ;;
        return_from
          (send_from_directory env dir_path (get_file env rendered_filename))
      else
        log INFO ("File format not supportted: " +:+ fs_filename file) ;;
        return_ (json_error "Input file format not supported") BAD_REQUEST
  end.

Definition render (format : string) (req : Request) : Result * list event :=
  view (render_body format req).

(** [POST /validate] *)
Definition validate_body (req : Request) : M Response :=
  match files req !! "file" with
  | None =>
      log INFO "no input file" ;;
      return_ (json_error "No file") BAD_REQUEST
  | Some file =>
      if String.eqb (fs_filename file) "" then
        log INFO "filename missing" ;;
        return_ (json_error "Filename is missing") BAD_REQUEST
      else if file_truthy file && allowed_file env (fs_filename file) None then
        '(_, filename) <-
          try_except
            (call (CallProcessFile file (UPLOAD_DIR env))
                  (process_file env file (UPLOAD_DIR env)))
            conversion_errors ;;
        log_ <-
          try_except (call (CallValidateXml filename) (validate_xml env filename))
            xml2rfc_error ;;
        return_ (Json log_) OK
      else
        log INFO ("File format not supportted: " +:+ fs_filename file) ;;
        return_ (json_error "Input file format not supported") BAD_REQUEST
  end.

Definition validate (req : Request) : Result * list event :=
  view (validate_body req).

(** [POST /svgcheck] *)
Definition svgcheck_body (req : Request) : M Response :=
  match files req !! "file" with
  | None =>
      log INFO "no input file" ;;
      return_ (json_error "No file") BAD_REQUEST
  | Some file =>
      if String.eqb (fs_filename file) "" then
        log INFO "filename missing" ;;
        return_ (json_error "Filename is missing") BAD_REQUEST
      else if file_truthy file
              && allowed_file env (fs_filename file) (Some "svgcheck") then
        try_except
          ('(_, filename) <-
             call (CallSaveFile file (UPLOAD_DIR env))
                  (save_file env file (UPLOAD_DIR env)) ;;
           '(svg, result) <-
             call (CallSvgCheck filename) (get_svgcheck env filename) ;;
           return_ (Json (JDict [("svgcheck", result); ("svg", svg)])) OK)
          [ bad_request SvgCheckError exn_str ]
      else
        log INFO ("File format not supportted: " +:+ fs_filename file) ;;
        return_ (json_error "Input file format not supported") BAD_REQUEST
  end.

Definition svgcheck (req : Request) : Result * list event :=
  view (svgcheck_body req).

(** [POST /abnf/parse] *)
Definition abnf_parse_body (req : Request) : M Response :=
  let input := values_get_str req "input" "" in
  '(_, filename) <-
    call (CallSaveFileFromText input (UPLOAD_DIR env))
         (save_file_from_text env input (UPLOAD_DIR env)) ;;
  '(errors, abnf) <- call (CallParseAbnf filename) (parse_abnf env filename) ;;
  return_ (Json (JDict [("errors", errors); ("abnf", abnf)])) OK.

Definition abnf_parse (req : Request) : Result * list event :=
  view (abnf_parse_body req).

(** [GET /idnits] *)
Definition idnits_body (req : Request) : M Response :=
  let url := PyString.strip (values_get_str req "url" "") in
  let verbose := PyString.strip (values_get_str req "verbose" "0") in
  let show_text :=
    if truthy (values_get req "hidetext" (VBool false)) then false else true in
  let year := PyString.strip (values_get_str req "year" "") in
  let submit_check :=
    if truthy (values_get req "submitcheck" (VBool false)) then true else false in
  if String.eqb url "" then
    log INFO "URL is missing" ;;
    return_ (json_error "URL is missing") BAD_REQUEST
  else
    filename <-
      try_except
        (valid <- call (CallIsValidUrl url (ALLOWED_DOMAINS env))
                       (is_valid_url env url (ALLOWED_DOMAINS env)) ;;
         if (valid : bool) then
           '(dir_path, filename) <-
             call (CallGetTextIdFromUrl url (UPLOAD_DIR env))
                  (get_text_id_from_url env url (UPLOAD_DIR env)) ;;
           ret (Some filename)
         else ret None)
        [ bad_request TextProcessingError exn_str;
          bad_request InvalidURL exn_str;
          bad_request DownloadError exn_str ] ;;
    filename <- read_local "filename" filename ;;
    output <-
      call (CallIdnits filename verbose show_text year submit_check)
           (get_idnits env filename verbose show_text year submit_check) ;;
    return_ (PlainText output) OK.

Definition idnits (req : Request) : Result * list event :=
  view (idnits_body req).

(** [GET /abnf/extract] *)
Definition abnf_extract_body (req : Request) : M Response :=
  let url := PyString.strip (values_get_str req "url" "") in
  let doc := PyString.strip (values_get_str req "doc" "") in
  try_except
    (url <-
       (if negb (String.eqb url "") then
          valid <- call (CallIsValidUrl url (ALLOWED_DOMAINS env))
                        (is_valid_url env url (ALLOWED_DOMAINS env)) ;;
          (* if valid: pass *)
          ret url
        else if negb (String.eqb doc "") then
          call (CallGetLatest doc (DT_LATEST_DRAFT_URL env) WithLogger)
               (get_latest env doc (DT_LATEST_DRAFT_URL env) WithLogger)
        else
          log INFO "URL/document is missing" ;;
          return_ (json_error "URL/document name must be provided") BAD_REQUEST) ;;
     '(_, filename) <-
       call (CallGetTextIdFromUrl url (UPLOAD_DIR env))
            (get_text_id_from_url env url (UPLOAD_DIR env)) ;;
     output <- call (CallExtractAbnf filename) (extract_abnf env filename) ;;
     return_ (PlainText output) OK)
    [ bad_request LatestDraftNotFound exn_str;
      bad_request DownloadError exn_str;
      bad_request TextProcessingError exn_str;
      bad_request InvalidURL exn_str ].

Definition abnf_extract (req : Request) : Result * list event :=
  view (abnf_extract_body req).

(** *** [POST, GET /iddiff] *)

(** Lines 206-218: the four names after stripping and after the
    single-parameter rule, as [(doc_1, doc_2, url_1, url_2)]. *)
Definition iddiff_names (req : Request) : string * string * string * string :=
  let doc_1 := PyString.strip (values_get_str req "doc_1" "") in
  let doc_2 := PyString.strip (values_get_str req "doc_2" "") in
  let url_1 := PyString.strip (values_get_str req "url_1" "") in
  let url_2 := PyString.strip (values_get_str req "url_2" "") in
  if bool_decide (files req !! "file_1" = None)
     && negb (truthy (VStr doc_1)) && negb (truthy (VStr url_1)) then
    if truthy (VStr doc_2) then (doc_2, "", url_1, url_2)
    else if truthy (VStr url_2) then (doc_1, doc_2, url_2, "")
    else (doc_1, doc_2, url_1, url_2)
  else (doc_1, doc_2, url_1, url_2).

(** The locals the first draft's branches assign. *)
Record First := {
  file_1 : option FileStorage;
  dir_path_1 : option string;
  filename_1 : option string
}.

(** The locals the second draft's branches assign. *)
Record Second := {
  dir_path_2 : option string;
  filename_2 : option string;
  single_draft : bool
}.

(** Lines 232-287: the first draft. *)
Definition first_draft (req : Request) (doc_1 url_1 : string) : M First :=
  if negb (truthy (VStr doc_1)) && negb (truthy (VStr url_1)) then
    match files req !! "file_1" with
    | None =>
        log INFO "no documents to compare" ;;
        return_ (json_error "No documents to compare") BAD_REQUEST
    | Some file_1 =>
        if String.eqb (fs_filename file_1) "" then
          log INFO "first draft filename missing" ;;
          return_ (json_error "Filename of first draft missing") BAD_REQUEST
        else if file_truthy file_1 && allowed_file env (fs_filename file_1) None then
          '(dir_path_1, filename_1) <-
            try_except
              (call (CallGetTextIdFromFile file_1 (UPLOAD_DIR env))
                    (get_text_id_from_file env file_1 (UPLOAD_DIR env)))
              [ bad_request TextProcessingError
                  (fun e => "Error converting first draft to text: " +:+ exn_str e) ] ;;
          ret {| file_1 := Some file_1;
                 dir_path_1 := Some dir_path_1;
                 filename_1 := Some filename_1 |}
        else
          log INFO ("File format not supportted: " +:+ fs_filename file_1) ;;
          return_ (json_error "First file format not supported") BAD_REQUEST
    end
  else if truthy (VStr doc_1) then
    url <-
      try_except
        (call (CallGetLatest doc_1 (DT_LATEST_DRAFT_URL env) WithLogger)
              (get_latest env doc_1 (DT_LATEST_DRAFT_URL env) WithLogger))
        [ bad_request LatestDraftNotFound exn_str;
          bad_request DownloadError exn_str ] ;;
    '(dir_path_1, filename_1) <-
      try_except
        (call (CallGetTextIdFromUrl url (UPLOAD_DIR env))
              (get_text_id_from_url env url (UPLOAD_DIR env)))
        [ bad_request DownloadError exn_str ] ;;
    ret {| file_1 := None;
           dir_path_1 := Some dir_path_1;
           filename_1 := Some filename_1 |}
  else
    try_except
      (valid <- call (CallIsValidUrl url_1 (ALLOWED_DOMAINS env))
                     (is_valid_url env url_1 (ALLOWED_DOMAINS env)) ;;
       if (valid : bool) then
         '(dir_path_1, filename_1) <-
           call (CallGetTextIdFromUrl url_1 (UPLOAD_DIR env))
                (get_text_id_from_url env url_1 (UPLOAD_DIR env)) ;;
         ret {| file_1 := None;
                dir_path_1 := Some dir_path_1;
                filename_1 := Some filename_1 |}
       else
         ret {| file_1 := None; dir_path_1 := None; filename_1 := None |})
      [ bad_request InvalidURL exn_str;
        bad_request DownloadError exn_str ].

(** Lines 289-364: the second draft. *)
Definition second_draft (req : Request) (doc_2 url_2 : string) (l1 : First)
  : M Second :=
  if negb (truthy (VStr doc_2)) && negb (truthy (VStr url_2)) then
    match files req !! "file_2" with
    | None =>
        filename_1 <- read_local "filename_1" (filename_1 l1) ;;
        let filename := PyString.last_item (PyString.split "/" filename_1) in
        let draft_name := get_name env filename in
        let original_draft := get_name_with_revision env filename in
        match draft_name with
        | None =>
            file_1 <- read_local "file_1" (file_1 l1) ;;
            log ERROR ("Can not determine draft name for " +:+ fs_filename file_1) ;;
            return_ (json_error "Can not determine draft/rfc") OK
        | Some draft_name =>
            try_except
              (url <-
                 call (CallGetLatest draft_name (DT_LATEST_DRAFT_URL env)
                         (WithOriginal original_draft))
                      (get_latest env draft_name (DT_LATEST_DRAFT_URL env)
                         (WithOriginal original_draft)) ;;
               '(dir_path_2, filename_2) <-
                 call (CallGetTextIdFromUrl url (UPLOAD_DIR env))
                      (get_text_id_from_url env url (UPLOAD_DIR env)) ;;
               ret {| dir_path_2 := Some dir_path_2;
                      filename_2 := Some filename_2;
                      single_draft := true |})
              [ bad_request LatestDraftNotFound exn_str;
                bad_request DownloadError exn_str ]
        end
    | Some file_2 =>
        if String.eqb (fs_filename file_2) "" then
          log INFO "second draft filename missing" ;;
          return_ (json_error "Filename of second draft missing") BAD_REQUEST
        else if file_truthy file_2 && allowed_file env (fs_filename file_2) None then
          '(dir_path_2, filename_2) <-
            try_except
              (call (CallGetTextIdFromFile file_2 (UPLOAD_DIR env))
                    (get_text_id_from_file env file_2 (UPLOAD_DIR env)))
              [ bad_request TextProcessingError
                  (fun e => "Error converting second draft to text: " +:+ exn_str e) ] ;;
          ret {| dir_path_2 := Some dir_path_2;
                 filename_2 := Some filename_2;
                 single_draft := false |}
        else
          log INFO ("File format not supportted: " +:+ fs_filename file_2) ;;
          return_ (json_error "Second file format not supported") BAD_REQUEST
    end
  else if truthy (VStr doc_2) then
    url <-
      try_except
        (call (CallGetLatest doc_2 (DT_LATEST_DRAFT_URL env) WithLogger)
              (get_latest env doc_2 (DT_LATEST_DRAFT_URL env) WithLogger))
        [ bad_request LatestDraftNotFound exn_str ] ;;
    '(dir_path_2, filename_2) <-
      try_except
        (call (CallGetTextIdFromUrl url (UPLOAD_DIR env))
              (get_text_id_from_url env url (UPLOAD_DIR env)))
        [ bad_request DownloadError exn_str ] ;;
    ret {| dir_path_2 := Some dir_path_2;
           filename_2 := Some filename_2;
           single_draft := false |}
  else
    try_except
      (valid <- call (CallIsValidUrl url_2 (ALLOWED_DOMAINS env))
                     (is_valid_url env url_2 (ALLOWED_DOMAINS env)) ;;
       if (valid : bool) then
         '(dir_path_2, filename_2) <-
           call (CallGetTextIdFromUrl url_2 (UPLOAD_DIR env))
                (get_text_id_from_url env url_2 (UPLOAD_DIR env)) ;;
         ret {| dir_path_2 := Some dir_path_2;
                filename_2 := Some filename_2;
                single_draft := false |}
       else
         ret {| dir_path_2 := None; filename_2 := None; single_draft := false |})
      [ bad_request InvalidURL exn_str;
        bad_request DownloadError exn_str ].

(** Lines 378-379: [for dir_path in (dir_path_1, dir_path_2): ...] *)
Definition strip_dir_paths (iddiff : string) (dir_paths : list string) : string :=
  fold_left (fun iddiff dir_path => PyString.replace iddiff (dir_path +:+ "/") "")
    dir_paths iddiff.

(** Lines 366-382: the comparison. *)
Definition compare (table wdiff : bool) (l1 : First) (l2 : Second) : M Response :=
  try_except
    ('(old_draft, new_draft) <-
       (if single_draft l2 then
          old_draft <- read_local "filename_2" (filename_2 l2) ;;
          new_draft <- read_local "filename_1" (filename_1 l1) ;;
          ret (old_draft, new_draft)
        else
          old_draft <- read_local "filename_1" (filename_1 l1) ;;
          new_draft <- read_local "filename_2" (filename_2 l2) ;;
          ret (old_draft, new_draft)) ;;
     iddiff <-
       call (CallIdDiff old_draft new_draft table wdiff)
            (get_id_diff env old_draft new_draft table wdiff) ;;
     dir_path_1 <- read_local "dir_path_1" (dir_path_1 l1) ;;
     dir_path_2 <- read_local "dir_path_2" (dir_path_2 l2) ;;
     return_ (Html (strip_dir_paths iddiff [dir_path_1; dir_path_2])) OK)
    [ bad_request IddiffError (fun e => "iddiff error: " +:+ exn_str e) ].

Definition id_diff_body (req : Request) : M Response :=
  let '(doc_1, doc_2, url_1, url_2) := iddiff_names req in
  let table :=
    if truthy (values_get req "table" (VBool false)) then true else false in
  let wdiff :=
    if truthy (values_get req "wdiff" (VBool false)) then true else false in
  l1 <- first_draft req doc_1 url_1 ;;
  l2 <- second_draft req doc_2 url_2 l1 ;;
  compare table wdiff l1 l2.

Definition id_diff (req : Request) : Result * list event :=
  view (id_diff_body req).

End Views.

(** ** The URL check of the draft resolver *)

(** Modelled from the spec: [is_valid_url] of [at.utils.net], which the
    handlers call and which is not among the sources.  Section 4.3, step 1:
    an explicit URL is validated to be "syntactically well-formed AND its
    host is in allowed_domains; if not, fail with InvalidURL.  Otherwise
    fetch directly."  [url_host] stands for the URL parser (the host of a
    well-formed URL, nothing for a malformed one) and [message] for the text
    the exception carries. *)
Definition spec_is_valid_url (url_host : string -> option string)
    (message : string -> string) (url : string) (allowed_domains : list string)
  : exn + bool :=
  match url_host url with
  | Some host =>
      if bool_decide (host ∈ allowed_domains) then inr true
      else inl (Exn InvalidURL (message url))
  | None => inl (Exn InvalidURL (message url))
  end.

(** An environment follows the spec's URL check. *)
Definition checks_urls (env : Env) (url_host : string -> option string)
    (message : string -> string) : Prop :=
  forall url allowed_domains,
    is_valid_url env url allowed_domains
    = spec_is_valid_url url_host message url allowed_domains.

(** ** Vocabulary of the statements *)

Definition render_formats : list string := ["xml"; "html"; "text"; "pdf"].

Definition unsupported_format_response : Response :=
  {| resp_body := json_error "Render format not supported";
     resp_status := 400 |}.

(** Failing fast on the render format: an unsupported format with an
    accepted upload always gives 400 "Render format not supported", and no
    converter has run. *)
Definition render_fails_fast : Prop :=
  forall (env : Env) (format : string) (req : Request) (file : FileStorage),
    format ∉ render_formats ->
    files req !! "file" = Some file ->
    fs_filename file <> "" ->
    allowed_file env (fs_filename file) None = true ->
    (render env format req).1 = Responded unsupported_format_response
    /\ Forall (fun e => is_conversion e = false) (render env format req).2.

(** The four names of a request, one by one. *)
Definition doc_1_of (req : Request) : string := (iddiff_names req).1.1.1.
Definition doc_2_of (req : Request) : string := (iddiff_names req).1.1.2.
Definition url_1_of (req : Request) : string := (iddiff_names req).1.2.
Definition url_2_of (req : Request) : string := (iddiff_names req).2.

(** Hiding the staging area: the text of a successful diff contains
    neither staging directory followed by a slash. *)
Definition diff_hides_staging_paths : Prop :=
  forall (env : Env) (req : Request) (l1 : First) (l2 : Second)
         (t1 t2 t : list event) (d1 d2 text : string) (status : Z),
    first_draft env req (doc_1_of req) (url_1_of req) = (Val l1, t1) ->
    second_draft env req (doc_2_of req) (url_2_of req) l1 = (Val l2, t2) ->
    dir_path_1 l1 = Some d1 ->
    dir_path_2 l2 = Some d2 ->
    id_diff env req
      = (Responded {| resp_body := Html text; resp_status := status |}, t) ->
    PyString.contains (d1 +:+ "/") text = false
    /\ PyString.contains (d2 +:+ "/") text = false.

(** No second draft is named or uploaded: it has to be inferred. *)
Definition second_inferred (req : Request) : Prop :=
  doc_2_of req = "" /\ url_2_of req = "" /\ files req !! "file_2" = None.

(** [f2] is the staged file of the revision the registry gives for the draft
    name found in the filename [f1], asked with that filename's own
    name-and-revision as the original draft. *)
Definition inferred_from (env : Env) (f1 f2 : string) : Prop :=
  let filename := PyString.last_item (PyString.split "/" f1) in
  exists name url dir,
    get_name env filename = Some name
    /\ get_latest env name (DT_LATEST_DRAFT_URL env)
         (WithOriginal (get_name_with_revision env filename)) = inr url
    /\ get_text_id_from_url env url (UPLOAD_DIR env) = inr (dir, f2).

(** The answer to a request without its [file] part, and what must hold of
    a run that gives it: nothing but logging happened. *)
Definition no_file_response : Response :=
  {| resp_body := json_error "No file"; resp_status := 400 |}.

Definition rejected_untouched (run : Result * list event) : Prop :=
  run.1 = Responded no_file_response
  /\ Forall (fun e => is_call e = false) run.2.

(** The query parameter [key] is present with a non-empty value. *)
Definition flag_given (req : Request) (key : string) : Prop :=
  exists v, values req !! key = Some v /\ v <> "".

(** An event other than a run of the diff tool; a response other than the
    diff itself. *)
Definition not_diff (e : event) : Prop :=
  match e with
  | CallIdDiff _ _ _ _ => False
  | _ => True
  end.

Definition not_html (r : Response) : Prop :=
  match resp_body r with
  | Html _ => False
  | _ => True
  end.

(** A request with the value of [source] moved to [target]. *)
Definition move_value (source target v : string) (req : Request) : Request :=
  {| values := <[target := v]> (delete source (values req));
     files := files req |}.

(** ** A concrete environment and requests *)

Definition ends_with (suffix s : string) : bool :=
  PyString.starts_with (String.rev suffix) (String.rev s).

Definition basename (path : string) : string :=
  PyString.last_item (PyString.split "/" path).

Definition sample_url_host (url : string) : option string :=
  let rest :=
    if PyString.starts_with "https://" url then Some (PyString.drop 8 url)
    else if PyString.starts_with "http://" url then Some (PyString.drop 7 url)
    else None in
  match rest with
  | Some r =>
      match PyString.split "/" r with
      | h :: _ => if String.eqb h "" then None else Some h
      | [] => None
      end
  | None => None
  end.

Definition sample_message (url : string) : string := url +:+ ": domain not allowed".

(** Every collaborator succeeds, but for [process_file], [get_name] and the
    output of the diff tool, which are given; every file asked for is
    there and is sent in full. *)
Definition sample_env
    (process : FileStorage -> string -> exn + (string * string))
    (name_of : string -> option string) (diff_output : string) : Env :=
  {| UPLOAD_DIR := "/tmp/at";
     ALLOWED_DOMAINS := ["www.ietf.org"; "www.rfc-editor.org"];
     DT_LATEST_DRAFT_URL := "https://datatracker.ietf.org/latest";
     send_from_directory := fun directory name =>
       inr {| resp_body := Attachment directory name; resp_status := OK |};
     allowed_file := fun name process =>
       match process with
       | Some _ => ends_with ".svg" name
       | None =>
           ends_with ".xml" name || ends_with ".md" name
           || ends_with ".mkd" name || ends_with ".txt" name
       end;
     get_file := basename;
     get_name := name_of;
     get_name_with_revision := fun name => Some name;
     save_file := fun file dir =>
       inr (dir +:+ "/s1", dir +:+ "/s1/" +:+ fs_filename file);
     save_file_from_text := fun text dir =>
       inr (dir +:+ "/s2", dir +:+ "/s2/input.abnf");
     process_file := process;
     get_xml := fun name => inr name;
     get_html := fun name => inr (name +:+ ".html");
     get_text := fun name => inr (name +:+ ".txt");
     get_pdf := fun name => inr (name +:+ ".pdf");
     is_valid_url := spec_is_valid_url sample_url_host sample_message;
     get_latest := fun doc dt rest =>
       match rest with
       | WithLogger => inr ("https://www.ietf.org/archive/id/" +:+ doc +:+ ".txt")
       | WithOriginal _ =>
           inr ("https://www.ietf.org/archive/id/" +:+ doc +:+ "-00.txt")
       end;
     get_text_id_from_file := fun file dir =>
       inr (dir +:+ "/s3", dir +:+ "/s3/" +:+ fs_filename file);
     get_text_id_from_url := fun url dir =>
       inr (dir +:+ "/s4", dir +:+ "/s4/" +:+ basename url);
     validate_xml := fun name => inr (JDict []);
     get_idnits := fun name verbose show_text year submit_check =>
       inr "idnits report";
     get_svgcheck := fun name => inr (JStr "<svg/>", JNull);
     get_id_diff := fun old_draft new_draft table wdiff => inr diff_output;
     extract_abnf := fun name => inr "";
     parse_abnf := fun name => inr (JList [JStr "line 1: syntax error"], JStr "")
  |}.

Definition stage_upload (file : FileStorage) (dir : string)
  : exn + (string * string) :=
  inr (dir +:+ "/s0", dir +:+ "/s0/" +:+ fs_filename file).

Definition kramdown_fails (file : FileStorage) (dir : string)
  : exn + (string * string) :=
  inl (Exn KramdownError "draft.md: parse error").

(** The name of [draft-x-NN.txt] is [draft-x]; other files have none. *)
Definition draft_name_of (name : string) : option string :=
  if PyString.starts_with "draft-" name
  then Some (String.rev (PyString.drop 7 (String.rev name)))
  else None.

Definition quiet_env : Env := sample_env stage_upload draft_name_of "diff".

(** A diff whose output mentions the first staging directory inside a
    longer path, for an uploaded first draft and a named second one. *)
Definition joining_output : string := "/tmp/tmp/at/s3//at/s3/draft-a-00.txt".

Definition joining_env : Env := sample_env stage_upload draft_name_of joining_output.

Definition upload_and_name : Request :=
  {| values := {[ "doc_2" := "draft-b-02" ]};
     files := {[ "file_1" := {| fs_filename := "draft-a-00.txt"; fs_content := "" |} ]} |}.

Definition upload (key name : string) : Request :=
  {| values := ∅;
     files := {[ key := {| fs_filename := name; fs_content := "" |} ]} |}.

Definition query (kv : list (string * string)) : Request :=
  {| values := list_to_map kv; files := ∅ |}.

(** ** Vocabulary of the further properties *)

(** [jsonify(error=msg), BAD_REQUEST] *)
Definition error_answer (msg : string) : Response :=
  {| resp_body := json_error msg; resp_status := 400 |}.


(** The text put before the message of an exception of [process_file] that
    [render] and [validate] catch. *)
Definition conversion_prefix (c : exn_class) : option string :=
  match c with
  | KramdownError => Some "kramdown-rfc error: "
  | MmarkError => Some "mmark error: "
  | TextError => Some "id2xml error: "
  | _ => None
  end.

(** A flag of iddiff as the handler computes it (lines 222-230). *)
Definition flag_of (req : Request) (key : string) : bool :=
  if truthy (values_get req key (VBool false)) then true else false.

(** [s] without its last character. *)
Fixpoint but_last (s : string) : string :=
  match s with
  | EmptyString => EmptyString
  | String c EmptyString => EmptyString
  | String c s' => String c (but_last s')
  end.

(** One scan of [s] for [p], from left to right: [pieces] are the
    stretches of [s] between the occurrences of [p] that the scan takes out.
    An occurrence taken out is the first one that starts at or after the end
    of the one taken out before it: no occurrence starts inside the piece in
    front of it, that is, [p] does not occur in the piece followed by all
    but the last character of [p].  The last piece has no occurrence left. *)
Inductive scanned (p : string) : string -> list string -> Prop :=
| scanned_end (s : string) :
    PyString.contains p s = false ->
    scanned p s [s]
| scanned_cut (g rest : string) (pieces : list string) :
    PyString.contains p (g +:+ but_last p) = false ->
    scanned p rest pieces ->
    scanned p (g +:+ p +:+ rest) (g :: pieces).

(** [text] is [out] after a scan for [d1/] and then, on the pieces put
    together, a scan for [d2/]: the scans exist, and whichever pieces they
    are given with, the pieces of the second put together are [text]. *)
Definition stripped_by_scans (d1 d2 out text : string) : Prop :=
  (exists pieces1 pieces2,
     scanned (d1 +:+ "/") out pieces1
     /\ scanned (d2 +:+ "/") (PyString.concat pieces1) pieces2
     /\ text = PyString.concat pieces2)
  /\ forall pieces1 pieces2,
       scanned (d1 +:+ "/") out pieces1 ->
       scanned (d2 +:+ "/") (PyString.concat pieces1) pieces2 ->
       text = PyString.concat pieces2.

(** How [render] ends once the file [out] has been made in the staging
    directory [dir]: as [send_from_directory] does for the file
    [get_file (get_file out)] of [dir], with the response it builds or with
    the exception it raises. *)
Definition delivered (env : Env) (dir out : string) : Result :=
  match send_from_directory env dir (get_file env (get_file env out)) with
  | inr r => Responded r
  | inl e => Unhandled e
  end.


(** The upload [file] is the [file] part, it is named and [allowed_file]
    accepts the name for [process]. *)
Definition accepted_upload (env : Env) (req : Request) (process : option string)
    (file : FileStorage) : Prop :=
  files req !! "file" = Some file
  /\ fs_filename file <> ""
  /\ allowed_file env (fs_filename file) process = true.

(** [xml] is what [get_xml] made of what [process_file] made of the upload. *)
Definition converted_upload (env : Env) (req : Request) (xml : string) : Prop :=
  exists file dir name,
    files req !! "file" = Some file
    /\ process_file env file (UPLOAD_DIR env) = inr (dir, name)
    /\ get_xml env name = inr xml.

(** What entitles [render] to an event. *)
Definition render_event (env : Env) (format : string) (req : Request)
    (e : event) : Prop :=
  match e with
  | Log _ _ => True
  | CallProcessFile file dir =>
      accepted_upload env req None file /\ dir = UPLOAD_DIR env
  | CallGetXml name =>
      exists file dir,
        files req !! "file" = Some file
        /\ process_file env file (UPLOAD_DIR env) = inr (dir, name)
  | CallGetHtml xml => format = "html" /\ converted_upload env req xml
  | CallGetText xml => format = "text" /\ converted_upload env req xml
  | CallGetPdf xml => format = "pdf" /\ converted_upload env req xml
  | _ => False
  end.

(** What entitles [validate] to an event. *)
Definition validate_event (env : Env) (req : Request) (e : event) : Prop :=
  match e with
  | Log _ _ => True
  | CallProcessFile file dir =>
      accepted_upload env req None file /\ dir = UPLOAD_DIR env
  | CallValidateXml name =>
      exists file dir,
        files req !! "file" = Some file
        /\ process_file env file (UPLOAD_DIR env) = inr (dir, name)
  | _ => False
  end.

(** What entitles [svgcheck] to an event. *)
Definition svgcheck_event (env : Env) (req : Request) (e : event) : Prop :=
  match e with
  | Log _ _ => True
  | CallSaveFile file dir =>
      accepted_upload env req (Some "svgcheck") file /\ dir = UPLOAD_DIR env
  | CallSvgCheck name =>
      exists file dir,
        files req !! "file" = Some file
        /\ save_file env file (UPLOAD_DIR env) = inr (dir, name)
  | _ => False
  end.

(** What entitles [idnits] to an event; [url] is the stripped parameter. *)
Definition idnits_event (env : Env) (req : Request) (e : event) : Prop :=
  let url := PyString.strip (values_get_str req "url" "") in
  match e with
  | Log _ _ => True
  | CallIsValidUrl u domains =>
      u = url /\ url <> "" /\ domains = ALLOWED_DOMAINS env
  | CallGetTextIdFromUrl u dir =>
      u = url /\ dir = UPLOAD_DIR env
      /\ is_valid_url env url (ALLOWED_DOMAINS env) = inr true
  | CallIdnits name verbose _ year _ =>
      verbose = PyString.strip (values_get_str req "verbose" "0")
      /\ year = PyString.strip (values_get_str req "year" "")
      /\ is_valid_url env url (ALLOWED_DOMAINS env) = inr true
      /\ exists dir, get_text_id_from_url env url (UPLOAD_DIR env) = inr (dir, name)
  | _ => False
  end.

(** What entitles [abnf_extract] to an event; [url] and [doc] are the
    stripped parameters. *)
Definition abnf_extract_event (env : Env) (req : Request) (e : event) : Prop :=
  let url := PyString.strip (values_get_str req "url" "") in
  let doc := PyString.strip (values_get_str req "doc" "") in
  match e with
  | Log _ _ => True
  | CallIsValidUrl u domains =>
      u = url /\ url <> "" /\ domains = ALLOWED_DOMAINS env
  | CallGetLatest d dt rest =>
      url = "" /\ d = doc /\ doc <> "" /\ dt = DT_LATEST_DRAFT_URL env
      /\ rest = WithLogger
  | CallGetTextIdFromUrl u dir =>
      dir = UPLOAD_DIR env
      /\ ((url <> "" /\ u = url
           /\ exists valid, is_valid_url env url (ALLOWED_DOMAINS env) = inr valid)
          \/ (url = ""
              /\ get_latest env doc (DT_LATEST_DRAFT_URL env) WithLogger = inr u))
  | CallExtractAbnf name =>
      exists u dir, get_text_id_from_url env u (UPLOAD_DIR env) = inr (dir, name)
  | _ => False
  end.

(** The classes [abnf_extract] has an [except] clause for. *)
Definition abnf_extract_caught (c : exn_class) : bool :=
  match c with
  | LatestDraftNotFound | DownloadError | TextProcessingError | InvalidURL => true
  | _ => false
  end.

(** An upload staged by [id_diff]: one of the two file parts, named and
    accepted. *)
Definition iddiff_upload (env : Env) (req : Request) (file : FileStorage) : Prop :=
  (files req !! "file_1" = Some file \/ files req !! "file_2" = Some file)
  /\ fs_filename file <> ""
  /\ allowed_file env (fs_filename file) None = true.

(** Events of a draft given by upload or by URL. *)
Definition is_upload_or_url (e : event) : bool :=
  match e with
  | CallGetTextIdFromFile _ _ | CallIsValidUrl _ _ => true
  | _ => false
  end.

(** What entitles [id_diff] to an event: uploads are staged only when named
    and accepted, an explicit URL is checked before it is downloaded, the
    registry is asked for a given name or, when the second draft is
    inferred, for the name found in the first, and anything else that is
    downloaded is a URL the registry returned. *)
Definition iddiff_event (env : Env) (req : Request) (e : event) : Prop :=
  match e with
  | Log _ _ => True
  | CallGetTextIdFromFile file dir =>
      iddiff_upload env req file /\ dir = UPLOAD_DIR env
  | CallIsValidUrl u domains =>
      (u = url_1_of req \/ u = url_2_of req) /\ u <> ""
      /\ domains = ALLOWED_DOMAINS env
  | CallGetLatest d dt rest =>
      dt = DT_LATEST_DRAFT_URL env
      /\ ((rest = WithLogger /\ (d = doc_1_of req \/ d = doc_2_of req) /\ d <> "")
          \/ ((exists original, rest = WithOriginal original)
              /\ second_inferred req))
  | CallGetTextIdFromUrl u dir =>
      dir = UPLOAD_DIR env
      /\ (((u = url_1_of req \/ u = url_2_of req)
           /\ is_valid_url env u (ALLOWED_DOMAINS env) = inr true)
          \/ exists d rest, get_latest env d (DT_LATEST_DRAFT_URL env) rest = inr u)
  | CallIdDiff _ _ _ _ => True
  | _ => False
  end.

Definition disk_full (url dir : string) : exn + (string * string) :=
  inl (Exn OtherError "disk full").

(** ** Environments in which a collaborator misbehaves *)

(** [quiet_env] with six collaborators replaced. *)
Definition tuned_env
    (xml : string -> exn + string)
    (valid : string -> list string -> exn + bool)
    (latest : string -> string -> latest_rest -> exn + string)
    (fetch : string -> string -> exn + (string * string))
    (svg : string -> exn + (json * json))
    (diff : string -> string -> bool -> bool -> exn + string) : Env :=
  {| UPLOAD_DIR := UPLOAD_DIR quiet_env;
     ALLOWED_DOMAINS := ALLOWED_DOMAINS quiet_env;
     DT_LATEST_DRAFT_URL := DT_LATEST_DRAFT_URL quiet_env;
     send_from_directory := send_from_directory quiet_env;
     allowed_file := allowed_file quiet_env;
     get_file := get_file quiet_env;
     get_name := get_name quiet_env;
     get_name_with_revision := get_name_with_revision quiet_env;
     save_file := save_file quiet_env;
     save_file_from_text := save_file_from_text quiet_env;
     process_file := process_file quiet_env;
     get_xml := xml;
     get_html := get_html quiet_env;
     get_text := get_text quiet_env;
     get_pdf := get_pdf quiet_env;
     is_valid_url := valid;
     get_latest := latest;
     get_text_id_from_file := get_text_id_from_file quiet_env;
     get_text_id_from_url := fetch;
     validate_xml := validate_xml quiet_env;
     get_idnits := get_idnits quiet_env;
     get_svgcheck := svg;
     get_id_diff := diff;
     extract_abnf := extract_abnf quiet_env;
     parse_abnf := parse_abnf quiet_env
  |}.

Definition xml2rfc_fails (name : string) : exn + string :=
  inl (Exn XML2RFCError "not well-formed").

Definition svgcheck_fails (name : string) : exn + (json * json) :=
  inl (Exn SvgCheckError "not an SVG").

Definition iddiff_fails (old_draft new_draft : string) (table wdiff : bool)
  : exn + string :=
  inl (Exn IddiffError "cannot compare").

Definition download_fails (url dir : string) : exn + (string * string) :=
  inl (Exn DownloadError "404 Not Found").

Definition registry_down (doc dt : string) (rest : latest_rest) : exn + string :=
  inl (Exn DownloadError "registry unreachable").

(** A URL check that answers instead of raising. *)
Definition check_says_no (url : string) (domains : list string) : exn + bool :=
  inr false.

Definition broken_xml_env : Env :=
  tuned_env xml2rfc_fails (is_valid_url quiet_env) (get_latest quiet_env)
    (get_text_id_from_url quiet_env) (get_svgcheck quiet_env)
    (get_id_diff quiet_env).

Definition broken_svg_env : Env :=
  tuned_env (get_xml quiet_env) (is_valid_url quiet_env) (get_latest quiet_env)
    (get_text_id_from_url quiet_env) svgcheck_fails (get_id_diff quiet_env).

Definition broken_diff_env : Env :=
  tuned_env (get_xml quiet_env) (is_valid_url quiet_env) (get_latest quiet_env)
    (get_text_id_from_url quiet_env) (get_svgcheck quiet_env) iddiff_fails.

Definition offline_env : Env :=
  tuned_env (get_xml quiet_env) (is_valid_url quiet_env) (get_latest quiet_env)
    download_fails (get_svgcheck quiet_env) (get_id_diff quiet_env).

Definition no_registry_env : Env :=
  tuned_env (get_xml quiet_env) (is_valid_url quiet_env) registry_down
    (get_text_id_from_url quiet_env) (get_svgcheck quiet_env)
    (get_id_diff quiet_env).

Definition lenient_env : Env :=
  tuned_env (get_xml quiet_env) check_says_no (get_latest quiet_env)
    (get_text_id_from_url quiet_env) (get_svgcheck quiet_env)
    (get_id_diff quiet_env).

Definition full_disk_env : Env :=
  tuned_env (get_xml quiet_env) (is_valid_url quiet_env) (get_latest quiet_env)
    disk_full (get_svgcheck quiet_env) (get_id_diff quiet_env).

(** [send_from_directory] when the staged file is no longer there. *)
Definition file_gone (directory name : string) : exn + Response :=
  inl (Exn NotFound "404 Not Found").

(** [quiet_env] with a staging area that has been emptied. *)
Definition swept_env : Env :=
  {| UPLOAD_DIR := UPLOAD_DIR quiet_env;
     ALLOWED_DOMAINS := ALLOWED_DOMAINS quiet_env;
     DT_LATEST_DRAFT_URL := DT_LATEST_DRAFT_URL quiet_env;
     send_from_directory := file_gone;
     allowed_file := allowed_file quiet_env;
     get_file := get_file quiet_env;
     get_name := get_name quiet_env;
     get_name_with_revision := get_name_with_revision quiet_env;
     save_file := save_file quiet_env;
     save_file_from_text := save_file_from_text quiet_env;
     process_file := process_file quiet_env;
     get_xml := get_xml quiet_env;
     get_html := get_html quiet_env;
     get_text := get_text quiet_env;
     get_pdf := get_pdf quiet_env;
     is_valid_url := is_valid_url quiet_env;
     get_latest := get_latest quiet_env;
     get_text_id_from_file := get_text_id_from_file quiet_env;
     get_text_id_from_url := get_text_id_from_url quiet_env;
     validate_xml := validate_xml quiet_env;
     get_idnits := get_idnits quiet_env;
     get_svgcheck := get_svgcheck quiet_env;
     get_id_diff := get_id_diff quiet_env;
     extract_abnf := extract_abnf quiet_env;
     parse_abnf := parse_abnf quiet_env
  |}.

(** A diff whose output has two occurrences of the first staging directory
    that share a slash, for an uploaded first draft and a named second one. *)
Definition overlapping_output : string := "/tmp/at/s3/tmp/at/s3/draft-a-00.txt".

Definition overlapping_env : Env :=
  sample_env stage_upload draft_name_of overlapping_output.

Definition two_uploads : Request :=
  {| values := {[ "table" := "1" ]};
     files := {[ "file_1" := {| fs_filename := "draft-a-00.txt"; fs_content := "" |};
                 "file_2" := {| fs_filename := "draft-a-01.txt"; fs_content := "" |} ]} |}.

(** ** Tool versions ([at/utils/version.py]) *)

Module Version.

(** [subprocess.CompletedProcess] of a run with [capture_output=True]; the
    two outputs are bytes. *)
Record CompletedProcess := {
  returncode : Z;
  stdout : string;
  stderr : string
}.

(** The exceptions that can leave a version function: what
    [subprocess.run] itself raised (the program cannot be started), and
    [UnicodeDecodeError]. *)
Inductive fault :=
| RunFault (msg : string)
| UnicodeDecodeError (data : string).

(** [subprocess.run(args=..., capture_output=True)],
    [bytes.decode('utf-8')] (nothing for bytes that are not UTF-8) and
    [xml2rfc.__version__]. *)
Record System := {
  proc_run : list string -> fault + CompletedProcess;
  decode_utf8 : string -> option string;
  xml2rfc_version : string
}.

(** The body the two functions that ask a program for its version share,
    with the name of the program; the second component is what was logged. *)
Definition tool_version (sys : System) (tool : string)
  : (fault + option string) * list event :=
  match proc_run sys [tool; "--version"] with
  | inl f => (inl f, [])
  | inr output =>
      if Z.eqb (returncode output) 0 then
        (* check_returncode() passes *)
        match decode_utf8 sys (stdout output) with
        | Some text =>
            (inr (Some (PyString.strip (PyString.replace text tool ""))), [])
        | None => (inl (UnicodeDecodeError (stdout output)), [])
        end
      else
        (* except CalledProcessError *)
        match decode_utf8 sys (stderr output) with
        | Some text => (inr None, [Log INFO (tool +:+ " error: " +:+ text)])
        | None => (inl (UnicodeDecodeError (stderr output)), [])
        end
  end.

Definition get_kramdown_rfc2629_version (sys : System)
  : (fault + option string) * list event :=
  tool_version sys "kramdown-rfc2629".

Definition get_id2xml_version (sys : System)
  : (fault + option string) * list event :=
  tool_version sys "id2xml".

Definition get_xml2rfc_version (sys : System) : string := xml2rfc_version sys.

(** *** Vocabulary *)

Definition first_char (s : string) : option ascii :=
  match s with
  | EmptyString => None
  | String c _ => Some c
  end.

Fixpoint last_char (s : string) : option ascii :=
  match s with
  | EmptyString => None
  | String c EmptyString => Some c
  | String _ s' => last_char s'
  end.

(** No whitespace at either end. *)
Definition trimmed (s : string) : Prop :=
  (forall c, first_char s = Some c -> PyString.is_space c = false)
  /\ (forall c, last_char s = Some c -> PyString.is_space c = false).

Fixpoint all_space (s : string) : bool :=
  match s with
  | EmptyString => true
  | String c s' => PyString.is_space c && all_space s'
  end.

(** How [result], the run of a version function for [tool], fails. *)
Definition fails_as_documented (sys : System) (tool : string)
    (result : (fault + option string) * list event) : Prop :=
  (forall f, proc_run sys [tool; "--version"] = inl f -> result = (inl f, []))
  /\ (forall output,
        proc_run sys [tool; "--version"] = inr output ->
        (forall text,
           returncode output <> 0 ->
           decode_utf8 sys (stderr output) = Some text ->
           result = (inr None, [Log INFO (tool +:+ " error: " +:+ text)]))
        /\ (forall version logged,
              result = (inr version, logged) ->
              (version = None <-> returncode output <> 0))).

(** [result] is the version [v] when the program prints its name, blanks,
    [v] and blanks. *)
Definition reads_version (sys : System) (tool : string)
    (result : (fault + option string) * list event) : Prop :=
  forall output before v after,
    proc_run sys [tool; "--version"] = inr output ->
    returncode output = 0 ->
    decode_utf8 sys (stdout output) = Some (tool +:+ before +:+ v +:+ after) ->
    all_space before = true ->
    all_space after = true ->
    trimmed v ->
    PyString.contains tool (before +:+ v +:+ after) = false ->
    result = (inr (Some v), []).

(** A system on which kramdown-rfc2629 answers, id2xml fails and nothing
    else can be started. *)
Definition sample_system : System :=
  {| proc_run := fun args =>
       if decide (args = ["kramdown-rfc2629"; "--version"]) then
         inr {| returncode := 0;
                stdout := "kramdown-rfc2629 1.3.5" +:+ String "010" EmptyString;
                stderr := "" |}
       else if decide (args = ["id2xml"; "--version"]) then
         inr {| returncode := 1; stdout := ""; stderr := "id2xml: not installed" |}
       else inl (RunFault "No such file or directory");
     decode_utf8 := fun data => Some data;
     xml2rfc_version := "3.12.0" |}.

End Version.

(** * Properties *)

(** ** Strings *)

Example strip_blanks : PyString.strip "  draft-a-01 " = "draft-a-01".
Proof. reflexivity. Qed.

Example split_last :
  PyString.last_item (PyString.split "/" "/tmp/at/s4/draft-a-01.txt")
  = "draft-a-01.txt".
Proof. reflexivity. Qed.

Example replace_all :
  PyString.replace "--- /tmp/at/s3/a.txt +++ /tmp/at/s3/b.txt" "/tmp/at/s3/" ""
  = "--- a.txt +++ b.txt".
Proof. reflexivity. Qed.

Example replace_no_overlap : PyString.replace "aaa" "aa" "b" = "ba".
Proof. reflexivity. Qed.

Example replace_empty_pattern : PyString.replace "abc" "" "-" = "-a-b-c-".
Proof. reflexivity. Qed.

Section StringFacts.

Import PyString.

Lemma string_app_cons (c : ascii) (a b : string) :
  String c a +:+ b = String c (a +:+ b).
Proof. reflexivity. Qed.

Lemma string_app_nil_l (b : string) : "" +:+ b = b.
Proof. reflexivity. Qed.

Lemma string_app_nil_r (a : string) : a +:+ "" = a.
Proof. induction a as [|c a IH]; [reflexivity|]. rewrite string_app_cons, IH. reflexivity. Qed.

Lemma starts_with_drop (p s : string) :
  starts_with p s = true -> s = p +:+ drop (String.length p) s.
Proof.
  revert s. induction p as [|a p IH]; intros s H; [reflexivity|].
  destruct s as [|b s]; [discriminate|]. simpl in H.
  apply andb_true_iff in H as [Hab Hps].
  apply Ascii.eqb_eq in Hab. subst b.
  rewrite string_app_cons. simpl. f_equal. apply IH, Hps.
Qed.

Lemma starts_with_weaken (p a b : string) :
  starts_with p a = true -> starts_with p (a +:+ b) = true.
Proof.
  revert a. induction p as [|c p IH]; intros a H; [reflexivity|].
  destruct a as [|d a]; [discriminate|]. rewrite string_app_cons. simpl in *.
  apply andb_true_iff in H as [H1 H2]. rewrite H1. simpl. apply IH, H2.
Qed.

Lemma length_drop_le (k : nat) (s : string) :
  (String.length (drop k s) <= String.length s)%nat.
Proof.
  revert s. induction k as [|k IH]; intros [|c s]; simpl; try lia.
  specialize (IH s). lia.
Qed.

Lemma replace_go_skip (old new : string) (k : nat) (s : string) :
  replace_go old new k s = replace_go old new 0 (drop k s).
Proof.
  revert k. induction s as [|c s IH]; intros [|k]; try reflexivity.
  simpl drop. rewrite <- IH. reflexivity.
Qed.

Lemma replace_go_found (old new s : string) :
  old <> "" -> starts_with old s = true ->
  replace_go old new 0 s
  = new +:+ replace_go old new 0 (drop (String.length old) s).
Proof.
  intros Hold H. destruct old as [|a old]; [congruence|].
  destruct s as [|c s]; [discriminate|].
  cbn [replace_go]. rewrite H. rewrite replace_go_skip.
  simpl. rewrite Nat.sub_0_r. reflexivity.
Qed.

Lemma replace_go_pass (old new : string) (c : ascii) (s : string) :
  starts_with old (String c s) = false ->
  replace_go old new 0 (String c s) = String c (replace_go old new 0 s).
Proof. intros H. cbn [replace_go]. rewrite H. reflexivity. Qed.

Lemma contains_empty (p : string) : p <> "" -> contains p "" = false.
Proof. destruct p; [congruence|reflexivity]. Qed.

Lemma string_app_assoc (a b c : string) : (a +:+ b) +:+ c = a +:+ b +:+ c.
Proof.
  induction a as [|x a IH]; [reflexivity|].
  rewrite !string_app_cons, IH. reflexivity.
Qed.

Lemma string_app_length (a b : string) :
  String.length (a +:+ b) = (String.length a + String.length b)%nat.
Proof.
  induction a as [|x a IH]; [reflexivity|].
  rewrite string_app_cons. simpl. rewrite IH. reflexivity.
Qed.

Lemma string_app_inv_l (a b c : string) : a +:+ b = a +:+ c -> b = c.
Proof.
  induction a as [|x a IH]; [rewrite !string_app_nil_l; auto|].
  rewrite !string_app_cons. intros [= H]. auto.
Qed.

Lemma but_last_snoc (p : string) :
  p <> "" -> exists c, p = but_last p +:+ String c "".
Proof.
  induction p as [|a p IH]; [congruence|]. intros _.
  destruct p as [|b p]; [exists a; reflexivity|].
  destruct IH as [c Hc]; [discriminate|]. exists c.
  change (but_last (String a (String b p)))
    with (String a (but_last (String b p))).
  rewrite string_app_cons. f_equal. exact Hc.
Qed.

Lemma but_last_length (p : string) :
  p <> "" -> S (String.length (but_last p)) = String.length p.
Proof.
  intros Hp. destruct (but_last_snoc p Hp) as [c Hc].
  rewrite Hc at 2. rewrite string_app_length. simpl. lia.
Qed.

Lemma starts_with_length (p s : string) :
  starts_with p s = true -> (String.length p <= String.length s)%nat.
Proof.
  revert s. induction p as [|a p IH]; intros [|b s] H; simpl in *;
    try lia; try discriminate.
  apply andb_true_iff in H as [_ H]. apply IH in H. lia.
Qed.

Lemma starts_with_self (p r : string) : starts_with p (p +:+ r) = true.
Proof.
  induction p as [|a p IH]; [reflexivity|].
  rewrite string_app_cons. simpl. rewrite Ascii.eqb_refl. exact IH.
Qed.

(** A prefix of [a +:+ b] that is no longer than [a] is a prefix of [a]. *)
Lemma starts_with_cut (p a b : string) :
  starts_with p (a +:+ b) = true ->
  (String.length p <= String.length a)%nat ->
  starts_with p a = true.
Proof.
  revert a. induction p as [|c p IH]; intros a H Hlen; [reflexivity|].
  destruct a as [|d a]; [simpl in Hlen; lia|].
  rewrite string_app_cons in H. simpl in *.
  apply andb_true_iff in H as [H1 H2]. rewrite H1. simpl.
  apply IH; [exact H2|lia].
Qed.

Lemma contains_cons (p : string) (c : ascii) (s : string) :
  contains p (String c s) = starts_with p (String c s) || contains p s.
Proof. reflexivity. Qed.

Lemma contains_head (p s : string) :
  contains p s = false -> starts_with p s = false.
Proof.
  destruct s; cbn [contains]; intros H; apply orb_false_iff in H as [H _];
    exact H.
Qed.

Lemma contains_after (p g t : string) :
  starts_with p t = true -> contains p (g +:+ t) = true.
Proof.
  intros H. induction g as [|c g IH].
  - rewrite string_app_nil_l. destruct t; cbn [contains]; rewrite H; reflexivity.
  - rewrite string_app_cons, contains_cons, IH. apply orb_true_r.
Qed.

Lemma contains_short (p s : string) :
  (String.length s < String.length p)%nat -> contains p s = false.
Proof.
  induction s as [|c s IH]; intros Hlen.
  - destruct p; [simpl in Hlen; lia|reflexivity].
  - rewrite contains_cons. rewrite IH by (simpl in Hlen; lia).
    rewrite orb_false_r.
    destruct (starts_with p (String c s)) eqn:H; [|reflexivity].
    apply starts_with_length in H. lia.
Qed.

(** The text up to the last character of an occurrence, and the rest. *)
Lemma cut_regroup (p g rest : string) :
  p <> "" ->
  exists tail, g +:+ p +:+ rest = (g +:+ but_last p) +:+ tail.
Proof.
  intros Hp. destruct (but_last_snoc p Hp) as [c Hc]. revert Hc.
  generalize (but_last p). intros b Hc.
  exists (String c "" +:+ rest). rewrite Hc, !string_app_assoc. reflexivity.
Qed.

Lemma scanned_here (p rest : string) (pieces : list string) :
  p <> "" -> scanned p rest pieces -> scanned p (p +:+ rest) ("" :: pieces).
Proof.
  intros Hp H. apply (scanned_cut p "" rest pieces); [|exact H].
  rewrite string_app_nil_l. apply contains_short.
  pose proof (but_last_length p Hp). lia.
Qed.

Lemma scanned_push (p : string) (c : ascii) (s : string) (pieces : list string) :
  p <> "" ->
  scanned p s pieces ->
  starts_with p (String c s) = false ->
  exists g pieces',
    pieces = g :: pieces' /\ scanned p (String c s) (String c g :: pieces').
Proof.
  intros Hp H. destruct H as [s Hfree|g rest pieces Hleft Hrest]; intros Hsw.
  - exists s, []. split; [reflexivity|]. apply scanned_end.
    rewrite contains_cons, Hsw, Hfree. reflexivity.
  - exists g, pieces. split; [reflexivity|].
    apply (scanned_cut p (String c g) rest pieces); [|exact Hrest].
    rewrite string_app_cons, contains_cons, Hleft, orb_false_r.
    destruct (starts_with p (String c (g +:+ but_last p))) eqn:Hhead;
      [|reflexivity].
    destruct (cut_regroup p g rest Hp) as [tail Htail].
    assert (Hfull : starts_with p (String c (g +:+ p +:+ rest)) = true).
    { rewrite Htail.
      exact (starts_with_weaken p (String c (g +:+ but_last p)) tail Hhead). }
    congruence.
Qed.

(** The scan of [str.replace] is a scan in the sense of [scanned], and what
    it gives is the pieces put together. *)
Lemma replace_go_scanned (p : string) (n : nat) :
  p <> "" ->
  forall s, (String.length s <= n)%nat ->
  exists pieces, scanned p s pieces /\ replace_go p "" 0 s = concat pieces.
Proof.
  intros Hp. induction n as [|n IH]; intros s Hn.
  - destruct s; [|simpl in Hn; lia].
    exists [""]. split; [apply scanned_end, contains_empty, Hp|reflexivity].
  - destruct s as [|c s].
    { exists [""]. split; [apply scanned_end, contains_empty, Hp|reflexivity]. }
    destruct (starts_with p (String c s)) eqn:Hsw.
    + destruct (IH (drop (String.length p) (String c s)))
        as (pieces & Hscan & Hrep).
      { destruct p as [|a p]; [congruence|]. simpl.
        pose proof (length_drop_le (String.length p) s). simpl in Hn. lia. }
      exists ("" :: pieces). split.
      * pose proof (scanned_here p _ pieces Hp Hscan) as Hgoal.
        rewrite <- (starts_with_drop _ _ Hsw) in Hgoal. exact Hgoal.
      * rewrite replace_go_found by assumption.
        cbn [concat]. rewrite !string_app_nil_l. exact Hrep.
    + destruct (IH s) as (pieces & Hscan & Hrep).
      { simpl in Hn. lia. }
      destruct (scanned_push p c s pieces Hp Hscan Hsw)
        as (g & pieces' & -> & Hgoal).
      exists (String c g :: pieces'). split; [exact Hgoal|].
      rewrite replace_go_pass by exact Hsw. cbn [concat].
      rewrite string_app_cons. f_equal. exact Hrep.
Qed.

Lemma replace_scanned (p s : string) :
  p <> "" ->
  exists pieces, scanned p s pieces /\ replace s p "" = concat pieces.
Proof.
  intros Hp.
  destruct (replace_go_scanned p (String.length s) Hp s (le_n _))
    as (pieces & Hscan & Hrep).
  exists pieces. split; [exact Hscan|].
  destruct p; [congruence|exact Hrep].
Qed.

(** An occurrence that follows [String c g] does not start the text. *)
Lemma cut_not_later (p : string) (c : ascii) (g rest rest' : string) :
  p <> "" ->
  p +:+ rest = String c g +:+ p +:+ rest' ->
  contains p (String c g +:+ but_last p) = true.
Proof.
  intros Hp Heq.
  destruct (cut_regroup p (String c g) rest' Hp) as [tail Htail].
  rewrite Htail in Heq.
  pose proof (starts_with_self p rest) as H. rewrite Heq in H.
  apply starts_with_cut in H.
  2: { rewrite string_app_length. pose proof (but_last_length p Hp).
       simpl. lia. }
  destruct (contains p (String c g +:+ but_last p)) eqn:E; [reflexivity|].
  apply contains_head in E. congruence.
Qed.

(** The first piece of a scan is determined by the text. *)
Lemma cut_unique (p : string) :
  p <> "" ->
  forall g g' rest rest',
    g +:+ p +:+ rest = g' +:+ p +:+ rest' ->
    contains p (g +:+ but_last p) = false ->
    contains p (g' +:+ but_last p) = false ->
    g = g'.
Proof.
  intros Hp. induction g as [|c g IH]; intros [|c' g'] rest rest' Heq Hg Hg'.
  - reflexivity.
  - rewrite string_app_nil_l in Heq.
    pose proof (cut_not_later p c' g' rest rest' Hp Heq). congruence.
  - rewrite string_app_nil_l in Heq. symmetry in Heq.
    pose proof (cut_not_later p c g rest' rest Hp Heq). congruence.
  - rewrite !string_app_cons in Heq. injection Heq as -> Heq. f_equal.
    apply (IH g' rest rest' Heq).
    + rewrite string_app_cons, contains_cons in Hg.
      apply orb_false_iff in Hg as [_ Hg]. exact Hg.
    + rewrite string_app_cons, contains_cons in Hg'.
      apply orb_false_iff in Hg' as [_ Hg']. exact Hg'.
Qed.

(** A text has one scan only. *)
Lemma scanned_unique (p s : string) (l l' : list string) :
  p <> "" -> scanned p s l -> scanned p s l' -> l = l'.
Proof.
  intros Hp H. revert l'.
  induction H as [s Hfree|g rest pieces Hleft Hrest IH]; intros l' H'.
  - revert Hfree. destruct H' as [s Hfree'|g' rest' pieces' Hleft' Hrest'];
      intros Hfree; [reflexivity|].
    rewrite (contains_after p g' (p +:+ rest')) in Hfree
      by apply starts_with_self.
    discriminate.
  - remember (g +:+ p +:+ rest) as s eqn:Hs. revert Hs.
    destruct H' as [s Hfree'|g' rest' pieces' Hleft' Hrest']; intros Hs.
    + subst s. rewrite contains_after in Hfree' by apply starts_with_self.
      discriminate.
    + pose proof (cut_unique p Hp _ _ _ _ Hs Hleft' Hleft) as ->.
      apply string_app_inv_l, string_app_inv_l in Hs. subst rest'.
      f_equal. apply IH. exact Hrest'.
Qed.

Lemma slash_path_nonempty (d : string) : d +:+ "/" <> "".
Proof. destruct d; discriminate. Qed.

End StringFacts.

(** ** The monad: what a computation emits and what it returns *)

Section Sat.

Variable Pev : event -> Prop.
Variable Pret : Response -> Prop.

Lemma sat_ret {A} (a : A) : sat Pev Pret (ret a).
Proof. split; [constructor|discriminate]. Qed.

Lemma sat_raise {A} (e : exn) : sat Pev Pret (@raise A e).
Proof. split; [constructor|discriminate]. Qed.

Lemma sat_return {A} (b : body) (status : Z) :
  Pret {| resp_body := b; resp_status := status |} -> sat Pev Pret (@return_ A b status).
Proof. intros H. split; [constructor|]. simpl. intros r [= <-]. exact H. Qed.

Lemma sat_bind {A B} (m : M A) (k : A -> M B) :
  sat Pev Pret m -> (forall a, sat Pev Pret (k a)) -> sat Pev Pret (bind m k).
Proof.
  intros [Hm Hr] Hk. destruct m as [[a|r|e] t]; simpl in *.
  - destruct (Hk a) as [Hka Hkr]. destruct (k a) as [o t']. simpl in *.
    split; [apply Forall_app; split; assumption|exact Hkr].
  - split; [exact Hm|]. intros r0 [= <-]. apply Hr. reflexivity.
  - split; [exact Hm|discriminate].
Qed.

Lemma sat_log (lvl : level) (msg : string) : Pev (Log lvl msg) -> sat Pev Pret (log lvl msg).
Proof. intros H. split; [repeat constructor; exact H|discriminate]. Qed.

Lemma sat_call {A} (e : event) (r : exn + A) : Pev e -> sat Pev Pret (call e r).
Proof.
  intros H. destruct r; (split; [repeat constructor; exact H|discriminate]).
Qed.

Lemma sat_read_local {A} (name : string) (v : option A) : sat Pev Pret (read_local name v).
Proof. destruct v; [apply sat_ret|apply sat_raise]. Qed.

Lemma sat_try_except {A} (m : M A) (hs : list (exn_class * (exn -> M A))) :
  sat Pev Pret m -> Forall (fun h => forall e, sat Pev Pret (h.2 e)) hs -> sat Pev Pret (try_except m hs).
Proof.
  intros [Hm Hr] Hhs. destruct m as [[a|r|e] t]; simpl in *.
  - split; [exact Hm|discriminate].
  - split; [exact Hm|exact Hr].
  - induction Hhs as [|[c h] hs Hh _ IH]; simpl.
    + split; [exact Hm|discriminate].
    + destruct (decide (exn_cls e = c)); [|exact IH].
      destruct (Hh e) as [Hhe Hhr]. simpl in *. destruct (h e) as [o t'].
      split; [apply Forall_app; split; assumption|exact Hhr].
Qed.

Lemma sat_bad_request {A} (c : exn_class) (text : exn -> string) :
  (forall msg, Pret {| resp_body := json_error msg; resp_status := BAD_REQUEST |}) ->
  forall e, sat Pev Pret ((@bad_request A c text).2 e).
Proof. intros H e. apply sat_return, H. Qed.

End Sat.

(** Goals [sat _ _ m] for a handler fragment [m]: follow its structure. *)
Ltac sat_step :=
  match goal with
  | |- sat _ _ (bind _ _) => apply sat_bind; [|intros]
  | |- sat _ _ (try_except _ _) => apply sat_try_except
  | |- sat _ _ (ret _) => apply sat_ret
  | |- sat _ _ (raise _) => apply sat_raise
  | |- sat _ _ (read_local _ _) => apply sat_read_local
  | |- sat _ _ (log _ _) => apply sat_log
  | |- sat _ _ (call _ _) => apply sat_call
  | |- sat _ _ (return_ _ _) => apply sat_return
  | |- sat _ _ (match ?x with _ => _ end) => destruct x
  | |- Forall _ (_ :: _) => constructor; [cbv beta|]
  | |- Forall _ [] => constructor
  | |- forall e, sat _ _ ((bad_request _ _).2 e) => apply sat_bad_request; intros
  end.

Ltac sat_auto := repeat sat_step.

(** ** Uploads: [render], [validate], [svgcheck] *)

Lemma eqb_neq_false (a b : string) : a <> b -> String.eqb a b = false.
Proof. intros H. apply String.eqb_neq. exact H. Qed.

Lemma file_truthy_named (file : FileStorage) :
  fs_filename file <> "" -> file_truthy file = true.
Proof. intros H. unfold file_truthy. rewrite eqb_neq_false by exact H. reflexivity. Qed.

(** C9. A POST to /render/<format>, /validate or /svgcheck whose body has no
    [file] part is answered 400 "No file", and the handler has done nothing
    but log before answering: no tool was invoked, nothing was staged. *)
Theorem no_file_rejected_untouched (env : Env) (format : string) (req : Request) :
  files req !! "file" = None ->
  rejected_untouched (render env format req)
  /\ rejected_untouched (validate env req)
  /\ rejected_untouched (svgcheck env req).
Proof.
  intros H.
  unfold rejected_untouched, render, render_body, validate, validate_body,
    svgcheck, svgcheck_body.
  rewrite H. simpl.
  repeat split; repeat constructor.
Qed.

Lemma no_file_rejected_untouched_witness :
  rejected_untouched (render quiet_env "xml" (query []))
  /\ rejected_untouched (validate quiet_env (query []))
  /\ rejected_untouched (svgcheck quiet_env (query [])).
Proof.
  apply (no_file_rejected_untouched quiet_env "xml" (query [])).
  reflexivity.
Defined.

(** C1, as amended. With a render format other than xml, html, text and pdf
    and an accepted upload, once [process_file] and [get_xml] have both
    succeeded the answer is 400 "Render format not supported".  Both
    converters have been called by then; none of [get_html], [get_text],
    [get_pdf] has. *)
Theorem render_unsupported_after_conversion (env : Env) (format : string)
    (req : Request) (file : FileStorage) (dir_path filename xml_file : string) :
  format ∉ render_formats ->
  files req !! "file" = Some file ->
  fs_filename file <> "" ->
  allowed_file env (fs_filename file) None = true ->
  process_file env file (UPLOAD_DIR env) = inr (dir_path, filename) ->
  get_xml env filename = inr xml_file ->
  render env format req
  = (Responded unsupported_format_response,
     [ CallProcessFile file (UPLOAD_DIR env);
       CallGetXml filename;
       Log INFO ("render format not supported: " +:+ format) ]).
Proof.
  intros Hfmt Hfile Hname Hallowed Hproc Hxml.
  unfold render, render_body. rewrite Hfile.
  rewrite (eqb_neq_false _ _ Hname), (file_truthy_named _ Hname), Hallowed.
  rewrite Hproc. simpl. rewrite Hxml. simpl.
  unfold render_formats in Hfmt.
  rewrite !not_elem_of_cons in Hfmt.
  destruct Hfmt as (H1 & H2 & H3 & H4 & _).
  rewrite !eqb_neq_false by assumption.
  reflexivity.
Qed.

Lemma flac_unsupported : "flac" ∉ render_formats.
Proof.
  unfold render_formats. rewrite !not_elem_of_cons.
  repeat split; try discriminate. apply not_elem_of_nil.
Qed.

Lemma render_unsupported_after_conversion_witness :
  render quiet_env "flac" (upload "file" "draft-a-00.xml")
  = (Responded unsupported_format_response,
     [ CallProcessFile {| fs_filename := "draft-a-00.xml"; fs_content := "" |} "/tmp/at";
       CallGetXml "/tmp/at/s0/draft-a-00.xml";
       Log INFO "render format not supported: flac" ]).
Proof.
  apply (render_unsupported_after_conversion quiet_env "flac"
           (upload "file" "draft-a-00.xml")
           {| fs_filename := "draft-a-00.xml"; fs_content := "" |}
           "/tmp/at/s0" "/tmp/at/s0/draft-a-00.xml" "/tmp/at/s0/draft-a-00.xml").
  - exact flac_unsupported.
  - reflexivity.
  - discriminate.
  - reflexivity.
  - reflexivity.
  - reflexivity.
Defined.

(** What the handler does with a markdown upload that kramdown-rfc rejects
    when the render format is unsupported. *)
Example render_flac_kramdown_failure :
  render (sample_env kramdown_fails draft_name_of "") "flac"
    (upload "file" "draft-a-00.md")
  = (Responded
       {| resp_body := json_error "kramdown-rfc error: draft.md: parse error";
          resp_status := 400 |},
     [ CallProcessFile {| fs_filename := "draft-a-00.md"; fs_content := "" |}
         "/tmp/at" ]).
Proof. reflexivity. Qed.

(** C1, as stated, fails: the format is looked at only after the upload has
    gone through [process_file] and [get_xml], so a converter runs first and
    its failure is what the client is told. *)
Lemma render_fails_fast_refuted : ~ render_fails_fast.
Proof.
  intros H.
  destruct (H (sample_env kramdown_fails draft_name_of "") "flac"
              (upload "file" "draft-a-00.md")
              {| fs_filename := "draft-a-00.md"; fs_content := "" |})
    as [Hresp _].
  - exact flac_unsupported.
  - reflexivity.
  - discriminate.
  - reflexivity.
  - rewrite render_flac_kramdown_failure in Hresp. discriminate Hresp.
Qed.

(** ** [abnf/parse] *)

(** C8. Whatever [parse_abnf] reports as syntax errors is returned as the
    [errors] member of a 200 JSON answer next to the normalized grammar;
    the handler has no answer with status 400. *)
Theorem abnf_parse_errors_are_data (env : Env) (req : Request) :
  (forall r t, abnf_parse env req = (Responded r, t) ->
     resp_status r = 200
     /\ exists errors abnf,
          resp_body r = Json (JDict [("errors", errors); ("abnf", abnf)]))
  /\ (forall dir filename errors abnf,
        save_file_from_text env (values_get_str req "input" "") (UPLOAD_DIR env)
          = inr (dir, filename) ->
        parse_abnf env filename = inr (errors, abnf) ->
        abnf_parse env req
        = (Responded
             {| resp_body := Json (JDict [("errors", errors); ("abnf", abnf)]);
                resp_status := 200 |},
           [ CallSaveFileFromText (values_get_str req "input" "") (UPLOAD_DIR env);
             CallParseAbnf filename ])).
Proof.
  unfold abnf_parse, abnf_parse_body. split.
  - intros r t.
    destruct (save_file_from_text env _ _) as [e|[d f]]; simpl; [discriminate|].
    destruct (parse_abnf env f) as [e|[errors abnf]]; simpl; [discriminate|].
    intros [= <- <-]. simpl. eauto.
  - intros dir filename errors abnf -> . simpl. intros ->. reflexivity.
Qed.

Lemma abnf_parse_errors_are_data_witness :
  abnf_parse quiet_env (query [("input", "a = ")])
  = (Responded
       {| resp_body :=
            Json (JDict [("errors", JList [JStr "line 1: syntax error"]);
                         ("abnf", JStr "")]);
          resp_status := 200 |},
     [ CallSaveFileFromText "a = " "/tmp/at";
       CallParseAbnf "/tmp/at/s2/input.abnf" ]).
Proof.
  apply (proj2 (abnf_parse_errors_are_data quiet_env (query [("input", "a = ")]))
           "/tmp/at/s2" "/tmp/at/s2/input.abnf").
  - reflexivity.
  - reflexivity.
Defined.

(** ** [idnits] *)

Lemma truthy_flag_given (req : Request) (key : string) :
  truthy (values_get req key (VBool false)) = true <-> flag_given req key.
Proof.
  unfold values_get, flag_given. destruct (values req !! key) as [v|]; simpl.
  - rewrite negb_true_iff, String.eqb_neq. split.
    + intros H. exists v. split; [reflexivity|exact H].
    + intros (v' & [= <-] & H). exact H.
  - split; [discriminate|]. intros (v & Hv & _). discriminate Hv.
Qed.

(** Membership of an event in an explicit trace. *)
Ltac in_trace H :=
  rewrite ?elem_of_app, ?elem_of_cons, ?elem_of_nil in H;
  repeat match type of H with _ \/ _ => destruct H as [H|H] end;
  try discriminate H; try contradiction.

(** C10. The handler runs idnits once the URL is accepted and fetched, and
    whenever it does, text is hidden ([show_text] is off) exactly when
    [hidetext] is present with a non-empty value, and the submission check
    is on exactly when [submitcheck] is: the value itself is not read, so
    [submitcheck=0] turns the check on, and an empty or missing parameter
    leaves the flag off. *)
Theorem idnits_flags_follow_presence (env : Env) (req : Request) :
  (forall filename verbose year show_text submit_check,
     CallIdnits filename verbose show_text year submit_check ∈ (idnits env req).2 ->
     (show_text = false <-> flag_given req "hidetext")
     /\ (submit_check = true <-> flag_given req "submitcheck"))
  /\ (forall url dir filename,
        PyString.strip (values_get_str req "url" "") = url ->
        url <> "" ->
        is_valid_url env url (ALLOWED_DOMAINS env) = inr true ->
        get_text_id_from_url env url (UPLOAD_DIR env) = inr (dir, filename) ->
        exists verbose year show_text submit_check,
          CallIdnits filename verbose show_text year submit_check
            ∈ (idnits env req).2).
Proof.
  split.
  - intros filename verbose year show_text submit_check.
    rewrite <- !truthy_flag_given.
    unfold idnits, idnits_body.
    generalize (truthy (values_get req "hidetext" (VBool false))).
    generalize (truthy (values_get req "submitcheck" (VBool false))).
    intros sc ht.
    destruct (String.eqb _ ""); simpl.
    { intros Hin. in_trace Hin. }
    destruct (is_valid_url env _ _) as [e|[|]]; simpl.
    + repeat (case_decide; simpl); intros Hin; in_trace Hin.
    + destruct (get_text_id_from_url env _ _) as [e|[d f]]; simpl.
      * repeat (case_decide; simpl); intros Hin; in_trace Hin.
      * destruct (get_idnits env _ _ _ _ _); simpl; intros Hin; in_trace Hin.
        all: match goal with
             | E : CallIdnits _ _ _ _ _ = CallIdnits _ _ _ _ _ |- _ =>
                 injection E as -> -> -> -> ->
             end.
        all: destruct ht, sc; (split; split; congruence).
    + intros Hin. in_trace Hin.
  - intros url dir filename Hurl Hnonempty Hvalid Hfetch.
    unfold idnits, idnits_body.
    rewrite Hurl, (eqb_neq_false _ _ Hnonempty), Hvalid. simpl.
    rewrite Hfetch. simpl.
    do 4 eexists.
    destruct (get_idnits env _ _ _ _ _); simpl;
      rewrite !elem_of_cons; right; right; left; reflexivity.
Qed.

Lemma idnits_flags_follow_presence_witness :
  (true = false <-> flag_given
     (query [("url", "https://www.ietf.org/archive/id/draft-a-01.txt");
             ("submitcheck", "0"); ("hidetext", "")]) "hidetext")
  /\ (true = true <-> flag_given
     (query [("url", "https://www.ietf.org/archive/id/draft-a-01.txt");
             ("submitcheck", "0"); ("hidetext", "")]) "submitcheck").
Proof.
  apply (proj1 (idnits_flags_follow_presence quiet_env
           (query [("url", "https://www.ietf.org/archive/id/draft-a-01.txt");
                   ("submitcheck", "0"); ("hidetext", "")]))
           "/tmp/at/s4/draft-a-01.txt" "0" "").
  vm_compute. repeat constructor.
Defined.

(** ** [iddiff]: a first draft whose name cannot be determined *)

Lemma truthy_empty : truthy (VStr "") = false.
Proof. reflexivity. Qed.

Lemma truthy_nonempty (s : string) : s <> "" -> truthy (VStr s) = true.
Proof. intros H. simpl. rewrite eqb_neq_false by exact H. reflexivity. Qed.

(** An uploaded first draft, no second input, and a staged filename from
    which [get_name] finds no draft name: the error body goes out without
    a status. *)
Lemma id_diff_unnamed_upload (env : Env) (req : Request) (file : FileStorage)
    (dir name : string) :
  iddiff_names req = ("", "", "", "") ->
  files req !! "file_1" = Some file ->
  files req !! "file_2" = None ->
  fs_filename file <> "" ->
  allowed_file env (fs_filename file) None = true ->
  get_text_id_from_file env file (UPLOAD_DIR env) = inr (dir, name) ->
  get_name env (PyString.last_item (PyString.split "/" name)) = None ->
  id_diff env req
  = (Responded {| resp_body := json_error "Can not determine draft/rfc";
                  resp_status := 200 |},
     [ CallGetTextIdFromFile file (UPLOAD_DIR env);
       Log ERROR ("Can not determine draft name for " +:+ fs_filename file) ]).
Proof.
  intros Hnames Hf1 Hf2 Hname Hallowed Hstage Hnone.
  unfold id_diff, id_diff_body. rewrite Hnames.
  unfold first_draft, second_draft. rewrite truthy_empty, Hf1, Hf2. simpl.
  rewrite (eqb_neq_false _ _ Hname), (file_truthy_named _ Hname), Hallowed.
  rewrite Hstage. simpl. rewrite Hnone. reflexivity.
Qed.

(** A first draft given by name, no second input, and a fetched filename
    from which [get_name] finds no draft name: the log line reads
    [file_1], which this path never assigned. *)
Lemma id_diff_unnamed_doc (env : Env) (req : Request)
    (doc_1 url dir name : string) :
  iddiff_names req = (doc_1, "", "", "") ->
  doc_1 <> "" ->
  files req !! "file_2" = None ->
  get_latest env doc_1 (DT_LATEST_DRAFT_URL env) WithLogger = inr url ->
  get_text_id_from_url env url (UPLOAD_DIR env) = inr (dir, name) ->
  get_name env (PyString.last_item (PyString.split "/" name)) = None ->
  id_diff env req
  = (Unhandled (Exn UnboundLocalError "file_1"),
     [ CallGetLatest doc_1 (DT_LATEST_DRAFT_URL env) WithLogger;
       CallGetTextIdFromUrl url (UPLOAD_DIR env) ]).
Proof.
  intros Hnames Hdoc Hf2 Hlatest Hfetch Hnone.
  unfold id_diff, id_diff_body. rewrite Hnames.
  unfold first_draft, second_draft.
  rewrite truthy_empty, (truthy_nonempty _ Hdoc), Hf2. simpl.
  rewrite Hlatest. simpl. rewrite Hfetch. simpl. rewrite Hnone. reflexivity.
Qed.

(** The same with a first draft given by an accepted URL. *)
Lemma id_diff_unnamed_url (env : Env) (req : Request) (url_1 dir name : string) :
  iddiff_names req = ("", "", url_1, "") ->
  url_1 <> "" ->
  files req !! "file_2" = None ->
  is_valid_url env url_1 (ALLOWED_DOMAINS env) = inr true ->
  get_text_id_from_url env url_1 (UPLOAD_DIR env) = inr (dir, name) ->
  get_name env (PyString.last_item (PyString.split "/" name)) = None ->
  id_diff env req
  = (Unhandled (Exn UnboundLocalError "file_1"),
     [ CallIsValidUrl url_1 (ALLOWED_DOMAINS env);
       CallGetTextIdFromUrl url_1 (UPLOAD_DIR env) ]).
Proof.
  intros Hnames Hurl Hf2 Hvalid Hfetch Hnone.
  unfold id_diff, id_diff_body. rewrite Hnames.
  unfold first_draft, second_draft.
  rewrite truthy_empty, (truthy_nonempty _ Hurl), Hf2. simpl.
  rewrite Hvalid. simpl. rewrite Hfetch. simpl. rewrite Hnone. reflexivity.
Qed.

(** C2. An uploaded [notes.txt] alone: the draft name cannot be determined
    and the error body is sent with status 200, not 400. *)
Theorem id_diff_unnamed_upload_status :
  id_diff quiet_env (upload "file_1" "notes.txt")
  = (Responded {| resp_body := json_error "Can not determine draft/rfc";
                  resp_status := 200 |},
     [ CallGetTextIdFromFile {| fs_filename := "notes.txt"; fs_content := "" |}
         "/tmp/at";
       Log ERROR "Can not determine draft name for notes.txt" ]).
Proof. reflexivity. Qed.

(** C3. [doc_1=rfc-notes] alone: the draft name cannot be determined and
    the handler ends in an unhandled [UnboundLocalError] for [file_1]
    instead of an error response. *)
Theorem id_diff_unnamed_doc_unhandled :
  id_diff quiet_env (query [("doc_1", "rfc-notes")])
  = (Unhandled (Exn UnboundLocalError "file_1"),
     [ CallGetLatest "rfc-notes" "https://datatracker.ietf.org/latest" WithLogger;
       CallGetTextIdFromUrl "https://www.ietf.org/archive/id/rfc-notes.txt"
         "/tmp/at" ]).
Proof. reflexivity. Qed.

(** ** [iddiff]: a single name given in the second slot *)

Section MoveValue.

Variables (source target v : string) (req : Request).
Hypothesis distinct : source <> target.

Lemma lookup_move_target :
  values (move_value source target v req) !! target = Some v.
Proof. apply lookup_insert_eq. Qed.

Lemma lookup_move_source :
  values (move_value source target v req) !! source = None.
Proof.
  unfold move_value; simpl.
  rewrite lookup_insert_ne by congruence. apply lookup_delete_eq.
Qed.

Lemma lookup_move_other (key : string) :
  key <> source -> key <> target ->
  values (move_value source target v req) !! key = values req !! key.
Proof.
  intros Hs Ht. unfold move_value; simpl.
  rewrite lookup_insert_ne by congruence.
  rewrite lookup_delete_ne by congruence. reflexivity.
Qed.

Lemma values_get_move_other (key : string) (default : pyval) :
  key <> source -> key <> target ->
  values_get (move_value source target v req) key default
  = values_get req key default.
Proof. intros Hs Ht. unfold values_get. rewrite lookup_move_other by assumption. reflexivity. Qed.

Lemma values_get_str_move_other (key default : string) :
  key <> source -> key <> target ->
  values_get_str (move_value source target v req) key default
  = values_get_str req key default.
Proof. intros Hs Ht. unfold values_get_str. rewrite lookup_move_other by assumption. reflexivity. Qed.

Lemma values_get_str_move_target (default : string) :
  values_get_str (move_value source target v req) target default = v.
Proof. unfold values_get_str. rewrite lookup_move_target. reflexivity. Qed.

Lemma values_get_str_move_source (default : string) :
  values_get_str (move_value source target v req) source default = default.
Proof. unfold values_get_str. rewrite lookup_move_source. reflexivity. Qed.

End MoveValue.

(** The handler reads the request only through the four names, the two
    flags and the uploaded files. *)
Lemma id_diff_reads (env : Env) (req req' : Request) :
  iddiff_names req' = iddiff_names req ->
  values_get req' "table" (VBool false) = values_get req "table" (VBool false) ->
  values_get req' "wdiff" (VBool false) = values_get req "wdiff" (VBool false) ->
  files req' = files req ->
  id_diff env req' = id_diff env req.
Proof.
  intros Hnames Htable Hwdiff Hfiles.
  unfold id_diff, id_diff_body. rewrite Hnames, Htable, Hwdiff.
  unfold first_draft, second_draft. rewrite Hfiles. reflexivity.
Qed.

Lemma rstrip_cons (c : ascii) (s : string) :
  PyString.rstrip (String c s)
  = match PyString.rstrip s with
    | EmptyString =>
        if PyString.is_space c then EmptyString else String c EmptyString
    | String _ _ as r => String c r
    end.
Proof. reflexivity. Qed.

Lemma rstrip_idempotent (s : string) :
  PyString.rstrip (PyString.rstrip s) = PyString.rstrip s.
Proof.
  induction s as [|c s IH]; [reflexivity|].
  rewrite (rstrip_cons c s).
  destruct (PyString.rstrip s) as [|d r] eqn:Hr.
  - destruct (PyString.is_space c) eqn:Hc; [reflexivity|].
    rewrite rstrip_cons. simpl. rewrite Hc. reflexivity.
  - rewrite rstrip_cons, IH. reflexivity.
Qed.

Lemma lstrip_head (s : string) :
  match PyString.lstrip s with
  | EmptyString => True
  | String c _ => PyString.is_space c = false
  end.
Proof.
  induction s as [|c s IH]; [exact I|]. simpl.
  destruct (PyString.is_space c) eqn:Hc; [exact IH|exact Hc].
Qed.

(** Stripping a stripped value changes nothing, so the value moved to the
    first slot may be given stripped or as it was. *)
Lemma strip_idempotent (s : string) :
  PyString.strip (PyString.strip s) = PyString.strip s.
Proof.
  unfold PyString.strip. pose proof (lstrip_head s) as Hhead.
  destruct (PyString.lstrip s) as [|c t]; [reflexivity|].
  assert (PyString.lstrip (PyString.rstrip (String c t))
          = PyString.rstrip (String c t)) as ->.
  { rewrite rstrip_cons. destruct (PyString.rstrip t); [rewrite Hhead|];
      simpl; rewrite Hhead; reflexivity. }
  apply rstrip_idempotent.
Qed.

(** C5. Without a [file_1] upload and with [doc_1] and [url_1] empty, a
    request whose [doc_2] is not blank is handled exactly as the same
    request with that value given as [doc_1] and no [doc_2]; and when
    [doc_2] is blank too, a request whose [url_2] is not blank is handled
    exactly as the same request with that value given as [url_1] and no
    [url_2].  (So a request with only [doc_2] is a request with only
    [doc_1].)  The value may be moved with or without its surrounding
    blanks. *)
Theorem second_slot_alone_is_first (env : Env) (req : Request) (v : string) :
  files req !! "file_1" = None ->
  PyString.strip (values_get_str req "doc_1" "") = "" ->
  PyString.strip (values_get_str req "url_1" "") = "" ->
  (PyString.strip (values_get_str req "doc_2" "") <> "" ->
   PyString.strip v = PyString.strip (values_get_str req "doc_2" "") ->
   id_diff env (move_value "doc_2" "doc_1" v req) = id_diff env req)
  /\ (PyString.strip (values_get_str req "doc_2" "") = "" ->
      PyString.strip (values_get_str req "url_2" "") <> "" ->
      PyString.strip v = PyString.strip (values_get_str req "url_2" "") ->
      id_diff env (move_value "url_2" "url_1" v req) = id_diff env req).
Proof.
  intros Hfile Hdoc1 Hurl1. split.
  - intros Hdoc2 Hv.
    apply id_diff_reads;
      [ | apply values_get_move_other; discriminate
        | apply values_get_move_other; discriminate
        | reflexivity ].
    unfold iddiff_names. simpl files.
    rewrite values_get_str_move_target, values_get_str_move_source by discriminate.
    rewrite !values_get_str_move_other by discriminate.
    rewrite Hv, Hdoc1, Hurl1, Hfile.
    rewrite truthy_empty, (truthy_nonempty _ Hdoc2).
    rewrite bool_decide_eq_true_2 by reflexivity.
    reflexivity.
  - intros Hdoc2 Hurl2 Hv.
    apply id_diff_reads;
      [ | apply values_get_move_other; discriminate
        | apply values_get_move_other; discriminate
        | reflexivity ].
    unfold iddiff_names. simpl files.
    rewrite values_get_str_move_target, values_get_str_move_source by discriminate.
    rewrite !values_get_str_move_other by discriminate.
    rewrite Hv, Hdoc1, Hdoc2, Hurl1, Hfile.
    rewrite truthy_empty, (truthy_nonempty _ Hurl2).
    rewrite bool_decide_eq_true_2 by reflexivity.
    reflexivity.
Qed.

Lemma second_slot_alone_is_first_witness :
  id_diff quiet_env (query [("doc_1", "draft-a-01")])
  = id_diff quiet_env (query [("doc_2", " draft-a-01 ")]).
Proof.
  change (query [("doc_1", "draft-a-01")])
    with (move_value "doc_2" "doc_1" "draft-a-01"
            (query [("doc_2", " draft-a-01 ")])).
  apply (proj1 (second_slot_alone_is_first quiet_env
                  (query [("doc_2", " draft-a-01 ")]) "draft-a-01"
                  eq_refl eq_refl eq_refl)).
  - vm_compute. discriminate.
  - reflexivity.
Defined.

(** ** URLs outside the allowed domains *)

Lemma foreign_host_refused (env : Env) (url_host : string -> option string)
    (message : string -> string) (url host : string) :
  checks_urls env url_host message ->
  url_host url = Some host ->
  host ∉ ALLOWED_DOMAINS env ->
  is_valid_url env url (ALLOWED_DOMAINS env) = inl (Exn InvalidURL (message url)).
Proof.
  intros Hspec Hhost Hout. rewrite Hspec. unfold spec_is_valid_url.
  rewrite Hhost. rewrite bool_decide_eq_false_2 by exact Hout. reflexivity.
Qed.

(** C6. Wherever a handler resolves a draft from an explicit URL and the
    URL's host is not among the allowed domains, the answer is the 400 of
    the [InvalidURL] raised by the check and the call of the check is the
    last thing the handler does: the document is not fetched.  Only the host
    of the URL enters.  This holds for the [url] of idnits and of
    abnf/extract and for [url_1] of iddiff; for [url_2] of iddiff it holds
    once the first draft has been resolved (a first draft that fails ends
    the request before [url_2] is looked at). *)
Theorem foreign_host_never_fetched (env : Env)
    (url_host : string -> option string) (message : string -> string)
    (url host : string) :
  checks_urls env url_host message ->
  url <> "" ->
  url_host url = Some host ->
  host ∉ ALLOWED_DOMAINS env ->
  let refused :=
    Responded {| resp_body := json_error (message url); resp_status := 400 |} in
  let check := CallIsValidUrl url (ALLOWED_DOMAINS env) in
  (forall req,
     PyString.strip (values_get_str req "url" "") = url ->
     idnits env req = (refused, [check])
     /\ abnf_extract env req = (refused, [check]))
  /\ (forall req doc_2 url_2,
        iddiff_names req = ("", doc_2, url, url_2) ->
        id_diff env req = (refused, [check]))
  /\ (forall req doc_1 url_1 o1 t1,
        iddiff_names req = (doc_1, "", url_1, url) ->
        first_draft env req doc_1 url_1 = (o1, t1) ->
        id_diff env req
        = match o1 with
          | Val _ => (refused, t1 ++ [check])
          | Returned r => (Responded r, t1)
          | Raised e => (Unhandled e, t1)
          end).
Proof.
  intros Hspec Hurl Hhost Hout refused check.
  pose proof (foreign_host_refused env url_host message url host Hspec Hhost Hout)
    as Hcheck.
  split; [|split].
  - intros req Hreq. split.
    + unfold idnits, idnits_body. rewrite Hreq, (eqb_neq_false _ _ Hurl).
      rewrite Hcheck. reflexivity.
    + unfold abnf_extract, abnf_extract_body.
      rewrite Hreq, (eqb_neq_false _ _ Hurl). simpl.
      rewrite Hcheck. reflexivity.
  - intros req doc_2 url_2 Hnames.
    unfold id_diff, id_diff_body. rewrite Hnames.
    unfold first_draft. rewrite truthy_empty, (truthy_nonempty _ Hurl). simpl.
    rewrite Hcheck. reflexivity.
  - intros req doc_1 url_1 o1 t1 Hnames Hfirst.
    unfold id_diff, id_diff_body. rewrite Hnames, Hfirst.
    destruct o1 as [l1|r|e]; try reflexivity.
    unfold second_draft. rewrite truthy_empty, (truthy_nonempty _ Hurl). simpl.
    rewrite Hcheck. reflexivity.
Qed.

Lemma evil_host_not_allowed : "evil.example" ∉ ALLOWED_DOMAINS quiet_env.
Proof.
  simpl. rewrite !not_elem_of_cons.
  repeat split; try discriminate. apply not_elem_of_nil.
Qed.

Lemma foreign_host_never_fetched_witness :
  idnits quiet_env (query [("url", "https://evil.example/draft-a-01.txt")])
  = (Responded
       {| resp_body :=
            json_error "https://evil.example/draft-a-01.txt: domain not allowed";
          resp_status := 400 |},
     [ CallIsValidUrl "https://evil.example/draft-a-01.txt"
         ["www.ietf.org"; "www.rfc-editor.org"] ]).
Proof.
  refine (proj1 (proj1 (foreign_host_never_fetched quiet_env sample_url_host
                   sample_message "https://evil.example/draft-a-01.txt"
                   "evil.example" _ _ _ _)
                 (query [("url", "https://evil.example/draft-a-01.txt")]) _)).
  - intros url allowed_domains. reflexivity.
  - discriminate.
  - reflexivity.
  - exact evil_host_not_allowed.
  - reflexivity.
Defined.

(** ** [iddiff]: reaching the diff tool *)

Lemma first_draft_quiet (env : Env) (req : Request) (doc_1 url_1 : string) :
  sat not_diff not_html (first_draft env req doc_1 url_1).
Proof. unfold first_draft. sat_auto; exact I. Qed.

Lemma second_draft_quiet (env : Env) (req : Request) (doc_2 url_2 : string)
    (l1 : First) :
  sat not_diff not_html (second_draft env req doc_2 url_2 l1).
Proof. unfold second_draft. sat_auto; exact I. Qed.

Lemma not_diff_trace (t : list event) (old new : string) (table wdiff : bool) :
  Forall not_diff t -> CallIdDiff old new table wdiff ∉ t.
Proof.
  intros Hall Hin. rewrite Forall_forall in Hall. exact (Hall _ Hin).
Qed.

Lemma iddiff_names_eta (req : Request) :
  iddiff_names req = (doc_1_of req, doc_2_of req, url_1_of req, url_2_of req).
Proof.
  unfold doc_1_of, doc_2_of, url_1_of, url_2_of.
  destruct (iddiff_names req) as [[[? ?] ?] ?]. reflexivity.
Qed.

(** The flags as the handler computes them. *)
Lemma id_diff_body_unfold (env : Env) (req : Request) :
  exists table wdiff,
    id_diff_body env req
    = (l1 <- first_draft env req (doc_1_of req) (url_1_of req) ;;
       l2 <- second_draft env req (doc_2_of req) (url_2_of req) l1 ;;
       compare env table wdiff l1 l2).
Proof.
  unfold id_diff_body. rewrite (iddiff_names_eta req). eauto.
Qed.

Lemma id_diff_body_eq (env : Env) (req : Request) :
  id_diff_body env req
  = (l1 <- first_draft env req (doc_1_of req) (url_1_of req) ;;
     l2 <- second_draft env req (doc_2_of req) (url_2_of req) l1 ;;
     compare env (flag_of req "table") (flag_of req "wdiff") l1 l2).
Proof. unfold id_diff_body. rewrite (iddiff_names_eta req). reflexivity. Qed.

(** A run of the handler either goes through both resolutions and ends in
    the comparison, or stops before it without having run the diff tool and
    without a diff to show. *)
Lemma id_diff_cases (env : Env) (req : Request) :
  exists table wdiff,
    (exists l1 t1 l2 t2,
       first_draft env req (doc_1_of req) (url_1_of req) = (Val l1, t1)
       /\ second_draft env req (doc_2_of req) (url_2_of req) l1 = (Val l2, t2)
       /\ id_diff env req
          = ((view (compare env table wdiff l1 l2)).1,
             t1 ++ t2 ++ (compare env table wdiff l1 l2).2))
    \/ (Forall not_diff (id_diff env req).2
        /\ forall r, (id_diff env req).1 = Responded r -> not_html r).
Proof.
  destruct (id_diff_body_unfold env req) as (table & wdiff & Hbody).
  exists table, wdiff. unfold id_diff. rewrite Hbody. clear Hbody.
  pose proof (first_draft_quiet env req (doc_1_of req) (url_1_of req)) as [Hq1 Hr1].
  destruct (first_draft env req (doc_1_of req) (url_1_of req))
    as [[l1|r|e] t1]; simpl in Hq1, Hr1; cbn [bind].
  - pose proof (second_draft_quiet env req (doc_2_of req) (url_2_of req) l1)
      as [Hq2 Hr2].
    destruct (second_draft env req (doc_2_of req) (url_2_of req) l1)
      as [[l2|r|e] t2] eqn:Hsecond; simpl in Hq2, Hr2; cbn [bind].
    + left. exists l1, t1, l2, t2. split; [reflexivity|]. split; [exact Hsecond|].
      destruct (compare env table wdiff l1 l2) as [[?|?|?] t3]; reflexivity.
    + right. simpl. split; [apply Forall_app; split; assumption|].
      intros r' [= <-]. apply Hr2. reflexivity.
    + right. simpl. split; [apply Forall_app; split; assumption|discriminate].
  - right. simpl. split; [assumption|]. intros r' [= <-]. apply Hr1. reflexivity.
  - right. simpl. split; [assumption|discriminate].
Qed.

(** The comparison runs the tool on the two filenames, in the order the
    mode asks for. *)
Lemma compare_calls (env : Env) (table wdiff : bool) (l1 : First) (l2 : Second)
    (old new : string) (table' wdiff' : bool) :
  CallIdDiff old new table' wdiff' ∈ (compare env table wdiff l1 l2).2 ->
  exists f1 f2,
    filename_1 l1 = Some f1 /\ filename_2 l2 = Some f2
    /\ (old, new) = (if single_draft l2 then (f2, f1) else (f1, f2))
    /\ table' = table /\ wdiff' = wdiff.
Proof.
  unfold compare.
  destruct l1 as [file1 [d1|] [f1|]], l2 as [[d2|] [f2|] [|]]; simpl;
    try (intros Hin; in_trace Hin; fail);
    destruct (get_id_diff env _ _ table wdiff) as [e|out]; simpl;
    repeat (case_decide; simpl);
    intros Hin; in_trace Hin;
    match goal with
    | E : CallIdDiff _ _ _ _ = CallIdDiff _ _ _ _ |- _ =>
        injection E as -> -> -> ->
    end;
    (do 2 eexists; repeat split; reflexivity).
Qed.

(** A diff is shown only when the tool has produced one, and then with the
    two directories taken out in turn. *)
Lemma compare_html (env : Env) (table wdiff : bool) (l1 : First) (l2 : Second)
    (text : string) (status : Z) :
  (view (compare env table wdiff l1 l2)).1
    = Responded {| resp_body := Html text; resp_status := status |} ->
  exists f1 f2 d1 d2 out,
    filename_1 l1 = Some f1 /\ filename_2 l2 = Some f2
    /\ dir_path_1 l1 = Some d1 /\ dir_path_2 l2 = Some d2
    /\ get_id_diff env (if single_draft l2 then f2 else f1)
         (if single_draft l2 then f1 else f2) table wdiff = inr out
    /\ text = strip_dir_paths out [d1; d2].
Proof.
  unfold compare.
  destruct l1 as [file1 [d1|] [f1|]], l2 as [[d2|] [f2|] [|]]; simpl;
    try discriminate;
    destruct (get_id_diff env _ _ table wdiff) as [e|out] eqn:Hout; simpl;
    repeat (case_decide; simpl); try discriminate;
    intros [= <- <-]; (do 5 eexists; repeat split; try reflexivity; exact Hout).
Qed.

(** After a case analysis: run the handler on, through the [except] clauses,
    and drop the runs that do not finish the statement. *)
Ltac run_on := simpl; repeat (case_decide; simpl); try discriminate.

(** Only the branch that infers the second draft sets single-draft mode, and
    what it stages is the inferred revision. *)
Lemma second_draft_mode (env : Env) (req : Request) (doc_2 url_2 : string)
    (l1 : First) (l2 : Second) (t2 : list event) :
  second_draft env req doc_2 url_2 l1 = (Val l2, t2) ->
  (single_draft l2 = true
   <-> doc_2 = "" /\ url_2 = "" /\ files req !! "file_2" = None)
  /\ (single_draft l2 = true ->
      forall f1 f2, filename_1 l1 = Some f1 -> filename_2 l2 = Some f2 ->
                    inferred_from env f1 f2).
Proof.
  unfold second_draft, inferred_from.
  destruct doc_2 as [|c2 doc_2], url_2 as [|c3 url_2]; simpl.
  - destruct (files req !! "file_2") as [file_2|] eqn:Hfile.
    + destruct (String.eqb (fs_filename file_2) ""); run_on.
      destruct (file_truthy file_2 && allowed_file env _ None); run_on.
      destruct (get_text_id_from_file env file_2 _) as [e|[d f]]; run_on.
      intros [= <- <-]. simpl. repeat split; try discriminate.
      intros (_ & _ & [=]).
    + destruct (filename_1 l1) as [f1|]; run_on.
      destruct (get_name env _) as [name|] eqn:Hname; run_on.
      2: { destruct (file_1 l1); run_on. }
      destruct (get_latest env name _ _) as [e|url] eqn:Hlatest; run_on.
      destruct (get_text_id_from_url env url _) as [e|[d f2]] eqn:Hfetch; run_on.
      intros [= <- <-]. simpl. repeat split.
      intros _ f1' f2' [= <-] [= <-]. exists name, url, d. auto.
  - destruct (is_valid_url env _ _) as [e|[|]]; run_on.
    + destruct (get_text_id_from_url env _ _) as [e|[d f2]]; run_on.
      intros [= <- <-]. simpl. repeat split; try discriminate.
      intros (_ & [=] & _).
    + intros [= <- <-]. simpl. repeat split; try discriminate.
      intros (_ & [=] & _).
  - destruct (get_latest env _ _ _) as [e|url]; run_on.
    destruct (get_text_id_from_url env url _) as [e|[d f2]]; run_on.
    intros [= <- <-]. simpl. repeat split; try discriminate.
    intros ([=] & _).
  - destruct (get_latest env _ _ _) as [e|url]; run_on.
    destruct (get_text_id_from_url env url _) as [e|[d f2]]; run_on.
    intros [= <- <-]. simpl. repeat split; try discriminate.
    intros ([=] & _).
Qed.

(** Both drafts resolved: the tool is run on them. *)
Lemma compare_reaches_tool (env : Env) (table wdiff : bool) (l1 : First)
    (l2 : Second) (f1 f2 : string) :
  filename_1 l1 = Some f1 -> filename_2 l2 = Some f2 ->
  CallIdDiff (if single_draft l2 then f2 else f1)
    (if single_draft l2 then f1 else f2) table wdiff
    ∈ (compare env table wdiff l1 l2).2.
Proof.
  intros Hf1 Hf2. unfold compare. rewrite Hf1, Hf2.
  destruct (single_draft l2); simpl;
    destruct (get_id_diff env _ _ table wdiff); simpl;
    repeat (case_decide; simpl);
    try (destruct (dir_path_1 l1); simpl);
    try (destruct (dir_path_2 l2); simpl);
    rewrite ?elem_of_cons; auto.
Qed.

(** C4. Once both drafts are resolved the handler runs the diff tool, and
    whenever it runs it, single-draft mode is on exactly when the second
    draft had to be inferred.  In that mode the inferred revision is passed
    as the old draft and the supplied draft as the new one; otherwise the
    first draft is the old one and the second the new one. *)
Theorem single_draft_reverses_order (env : Env) (req : Request) :
  (forall old new table wdiff,
     CallIdDiff old new table wdiff ∈ (id_diff env req).2 ->
     exists l1 t1 l2 t2 f1 f2,
       first_draft env req (doc_1_of req) (url_1_of req) = (Val l1, t1)
       /\ filename_1 l1 = Some f1
       /\ second_draft env req (doc_2_of req) (url_2_of req) l1 = (Val l2, t2)
       /\ filename_2 l2 = Some f2
       /\ (single_draft l2 = true <-> second_inferred req)
       /\ (single_draft l2 = true ->
           inferred_from env f1 f2 /\ old = f2 /\ new = f1)
       /\ (single_draft l2 = false -> old = f1 /\ new = f2))
  /\ (forall l1 t1 l2 t2 f1 f2,
        first_draft env req (doc_1_of req) (url_1_of req) = (Val l1, t1) ->
        filename_1 l1 = Some f1 ->
        second_draft env req (doc_2_of req) (url_2_of req) l1 = (Val l2, t2) ->
        filename_2 l2 = Some f2 ->
        exists table wdiff,
          CallIdDiff (if single_draft l2 then f2 else f1)
            (if single_draft l2 then f1 else f2) table wdiff
            ∈ (id_diff env req).2).
Proof.
  split.
  - intros old new table wdiff Hin.
    destruct (id_diff_cases env req) as (tb & wd & [Hrun|[Hquiet _]]).
    2: { exfalso. exact (not_diff_trace _ _ _ _ _ Hquiet Hin). }
    destruct Hrun as (l1 & t1 & l2 & t2 & Hfirst & Hsecond & Hrun).
    rewrite Hrun in Hin. simpl in Hin.
    pose proof (first_draft_quiet env req (doc_1_of req) (url_1_of req))
      as [Hq1 _].
    pose proof (second_draft_quiet env req (doc_2_of req) (url_2_of req) l1)
      as [Hq2 _].
    rewrite Hfirst in Hq1. rewrite Hsecond in Hq2. simpl in Hq1, Hq2.
    rewrite !elem_of_app in Hin. destruct Hin as [Hin|[Hin|Hin]].
    { exfalso. exact (not_diff_trace _ _ _ _ _ Hq1 Hin). }
    { exfalso. exact (not_diff_trace _ _ _ _ _ Hq2 Hin). }
    apply compare_calls in Hin as (f1 & f2 & Hf1 & Hf2 & Horder & _ & _).
    destruct (second_draft_mode _ _ _ _ _ _ _ Hsecond) as [Hmode Hinferred].
    exists l1, t1, l2, t2, f1, f2.
    split; [exact Hfirst|]. split; [exact Hf1|].
    split; [exact Hsecond|]. split; [exact Hf2|].
    split; [exact Hmode|]. split.
    + intros Hs. rewrite Hs in Horder. injection Horder as -> ->.
      split; [apply Hinferred; assumption|]. split; reflexivity.
    + intros Hs. rewrite Hs in Horder. injection Horder as -> ->.
      split; reflexivity.
  - intros l1 t1 l2 t2 f1 f2 Hfirst Hf1 Hsecond Hf2.
    destruct (id_diff_body_unfold env req) as (tb & wd & Hbody).
    exists tb, wd. unfold id_diff. rewrite Hbody, Hfirst. cbn [bind].
    rewrite Hsecond. cbn [bind].
    pose proof (compare_reaches_tool env tb wd l1 l2 f1 f2 Hf1 Hf2) as Hin.
    destruct (compare env tb wd l1 l2) as [[r|r|e] t3]; simpl in *;
      rewrite !elem_of_app; auto.
Qed.

Lemma single_draft_reverses_order_witness :
  exists l1 t1 l2 t2 f1 f2,
    first_draft quiet_env (query [("doc_1", "draft-a-01")]) "draft-a-01" ""
      = (Val l1, t1)
    /\ filename_1 l1 = Some f1
    /\ second_draft quiet_env (query [("doc_1", "draft-a-01")]) "" "" l1
       = (Val l2, t2)
    /\ filename_2 l2 = Some f2
    /\ (single_draft l2 = true <-> second_inferred (query [("doc_1", "draft-a-01")]))
    /\ (single_draft l2 = true ->
        inferred_from quiet_env f1 f2
        /\ "/tmp/at/s4/draft-a-00.txt" = f2
        /\ "/tmp/at/s4/draft-a-01.txt" = f1)
    /\ (single_draft l2 = false ->
        "/tmp/at/s4/draft-a-00.txt" = f1
        /\ "/tmp/at/s4/draft-a-01.txt" = f2).
Proof.
  apply (proj1 (single_draft_reverses_order quiet_env
                  (query [("doc_1", "draft-a-01")]))
           "/tmp/at/s4/draft-a-00.txt" "/tmp/at/s4/draft-a-01.txt"
           false false).
  vm_compute. repeat constructor.
Defined.

(** ** [iddiff]: staging paths in the diff *)

(** A run that shows a diff went through both resolutions and ended in the
    comparison, made with the flags of the request. *)
Lemma id_diff_compared (env : Env) (req : Request) (text : string) (status : Z)
    (t : list event) :
  id_diff env req
    = (Responded {| resp_body := Html text; resp_status := status |}, t) ->
  exists l1 t1 l2 t2,
    first_draft env req (doc_1_of req) (url_1_of req) = (Val l1, t1)
    /\ second_draft env req (doc_2_of req) (url_2_of req) l1 = (Val l2, t2)
    /\ (view (compare env (flag_of req "table") (flag_of req "wdiff") l1 l2)).1
       = Responded {| resp_body := Html text; resp_status := status |}
    /\ t = (t1 ++ t2
            ++ (compare env (flag_of req "table") (flag_of req "wdiff") l1 l2).2)%list.
Proof.
  unfold id_diff. rewrite id_diff_body_eq.
  pose proof (first_draft_quiet env req (doc_1_of req) (url_1_of req)) as [_ Hr1].
  destruct (first_draft env req (doc_1_of req) (url_1_of req))
    as [[l1|r|e] t1]; simpl in Hr1; cbn [bind].
  - pose proof (second_draft_quiet env req (doc_2_of req) (url_2_of req) l1)
      as [_ Hr2].
    destruct (second_draft env req (doc_2_of req) (url_2_of req) l1)
      as [[l2|r|e] t2] eqn:Hsecond; simpl in Hr2; cbn [bind].
    + intros Hrun. exists l1, t1, l2, t2.
      split; [reflexivity|]. split; [exact Hsecond|].
      destruct (compare env _ _ l1 l2) as [[r|r|e] t3]; simpl in *;
        try discriminate; injection Hrun as <- <-; split; reflexivity.
    + simpl. intros [= -> _]. destruct (Hr2 _ eq_refl).
    + discriminate.
  - simpl. intros [= -> _]. destruct (Hr1 _ eq_refl).
  - discriminate.
Qed.

(** The comparison that shows a diff did one thing: it ran the tool on the
    two filenames, in the order the mode asks for. *)
Lemma compare_html_trace (env : Env) (table wdiff : bool) (l1 : First)
    (l2 : Second) (f1 f2 text : string) (status : Z) :
  (view (compare env table wdiff l1 l2)).1
    = Responded {| resp_body := Html text; resp_status := status |} ->
  filename_1 l1 = Some f1 ->
  filename_2 l2 = Some f2 ->
  status = 200
  /\ (compare env table wdiff l1 l2).2
     = [CallIdDiff (if single_draft l2 then f2 else f1)
          (if single_draft l2 then f1 else f2) table wdiff].
Proof.
  unfold compare.
  destruct l1 as [file1 [d1|] [g1|]], l2 as [[d2|] [g2|] [|]]; simpl;
    try discriminate;
    destruct (get_id_diff env _ _ table wdiff) as [e|out]; simpl;
    repeat (case_decide; simpl); try discriminate;
    intros [= <- <-] [= <-] [= <-]; split; reflexivity.
Qed.

(** Taking the two directories out in turn is two scans. *)
Lemma strip_dir_paths_scans (d1 d2 out : string) :
  stripped_by_scans d1 d2 out (strip_dir_paths out [d1; d2]).
Proof.
  destruct (replace_scanned (d1 +:+ "/") out (slash_path_nonempty d1))
    as (q1 & Hs1 & Hr1).
  destruct (replace_scanned (d2 +:+ "/") (PyString.concat q1)
              (slash_path_nonempty d2))
    as (q2 & Hs2 & Hr2).
  assert (Htext : strip_dir_paths out [d1; d2] = PyString.concat q2).
  { unfold strip_dir_paths. simpl. rewrite Hr1. exact Hr2. }
  split.
  - exists q1, q2. repeat split; assumption.
  - intros p1 p2 H1 H2.
    rewrite (scanned_unique _ _ _ _ (slash_path_nonempty d1) H1 Hs1) in H2.
    rewrite (scanned_unique _ _ _ _ (slash_path_nonempty d2) H2 Hs2).
    exact Htext.
Qed.

(** C7, as amended. A successful diff has status 200 and comes from one run
    of the tool, the last call of the request: on the two staged filenames,
    the second before the first when the second draft was inferred, with the
    flags of the request.  Its text is the output of that run after one
    left-to-right scan for [dir_path_1/] and then one of what is left for
    [dir_path_2/].  A scan takes out the first occurrence, then the first
    one that starts after the end of the one before, and so on; what it
    leaves is determined by the text scanned.  (An occurrence that only
    forms where the text before and after a removed one meet stays.) *)
Theorem diff_strips_scanned_paths (env : Env) (req : Request) (text : string)
    (status : Z) (t : list event) :
  id_diff env req
    = (Responded {| resp_body := Html text; resp_status := status |}, t) ->
  exists l1 t1 l2 t2 d1 d2 f1 f2 out,
    first_draft env req (doc_1_of req) (url_1_of req) = (Val l1, t1)
    /\ second_draft env req (doc_2_of req) (url_2_of req) l1 = (Val l2, t2)
    /\ dir_path_1 l1 = Some d1
    /\ dir_path_2 l2 = Some d2
    /\ filename_1 l1 = Some f1
    /\ filename_2 l2 = Some f2
    /\ (let old_draft := if single_draft l2 then f2 else f1 in
        let new_draft := if single_draft l2 then f1 else f2 in
        let table := flag_of req "table" in
        let wdiff := flag_of req "wdiff" in
        t = (t1 ++ t2 ++ [CallIdDiff old_draft new_draft table wdiff])%list
        /\ get_id_diff env old_draft new_draft table wdiff = inr out)
    /\ status = 200
    /\ stripped_by_scans d1 d2 out text.
Proof.
  intros Hrun.
  apply id_diff_compared in Hrun
    as (l1 & t1 & l2 & t2 & Hfirst & Hsecond & Hcmp & ->).
  pose proof Hcmp as Hhtml.
  apply compare_html in Hhtml
    as (f1 & f2 & d1 & d2 & out & Hf1 & Hf2 & Hd1 & Hd2 & Hout & ->).
  destruct (compare_html_trace _ _ _ _ _ _ _ _ _ Hcmp Hf1 Hf2) as [-> Htrace].
  exists l1, t1, l2, t2, d1, d2, f1, f2, out.
  repeat (split; [assumption|]).
  split; [|split; [reflexivity|apply strip_dir_paths_scans]].
  cbv zeta. rewrite Htrace. split; [reflexivity|exact Hout].
Qed.

Lemma diff_strips_scanned_paths_witness :
  exists l1 t1 l2 t2 d1 d2 f1 f2 out,
    first_draft quiet_env (query [("doc_1", "draft-a-01")])
      (doc_1_of (query [("doc_1", "draft-a-01")]))
      (url_1_of (query [("doc_1", "draft-a-01")])) = (Val l1, t1)
    /\ second_draft quiet_env (query [("doc_1", "draft-a-01")])
         (doc_2_of (query [("doc_1", "draft-a-01")]))
         (url_2_of (query [("doc_1", "draft-a-01")])) l1 = (Val l2, t2)
    /\ dir_path_1 l1 = Some d1
    /\ dir_path_2 l2 = Some d2
    /\ filename_1 l1 = Some f1
    /\ filename_2 l2 = Some f2
    /\ (let old_draft := if single_draft l2 then f2 else f1 in
        let new_draft := if single_draft l2 then f1 else f2 in
        let table := flag_of (query [("doc_1", "draft-a-01")]) "table" in
        let wdiff := flag_of (query [("doc_1", "draft-a-01")]) "wdiff" in
        [ CallGetLatest "draft-a-01" "https://datatracker.ietf.org/latest"
            WithLogger;
          CallGetTextIdFromUrl "https://www.ietf.org/archive/id/draft-a-01.txt"
            "/tmp/at";
          CallGetLatest "draft-a" "https://datatracker.ietf.org/latest"
            (WithOriginal (Some "draft-a-01.txt"));
          CallGetTextIdFromUrl "https://www.ietf.org/archive/id/draft-a-00.txt"
            "/tmp/at";
          CallIdDiff "/tmp/at/s4/draft-a-00.txt" "/tmp/at/s4/draft-a-01.txt"
            false false ]
        = (t1 ++ t2 ++ [CallIdDiff old_draft new_draft table wdiff])%list
        /\ get_id_diff quiet_env old_draft new_draft table wdiff = inr out)
    /\ 200 = 200
    /\ stripped_by_scans d1 d2 out "diff".
Proof.
  apply (diff_strips_scanned_paths quiet_env (query [("doc_1", "draft-a-01")])
           "diff" 200
           [ CallGetLatest "draft-a-01" "https://datatracker.ietf.org/latest"
               WithLogger;
             CallGetTextIdFromUrl "https://www.ietf.org/archive/id/draft-a-01.txt"
               "/tmp/at";
             CallGetLatest "draft-a" "https://datatracker.ietf.org/latest"
               (WithOriginal (Some "draft-a-01.txt"));
             CallGetTextIdFromUrl "https://www.ietf.org/archive/id/draft-a-00.txt"
               "/tmp/at";
             CallIdDiff "/tmp/at/s4/draft-a-00.txt" "/tmp/at/s4/draft-a-01.txt"
               false false ]).
  reflexivity.
Defined.

(** Two occurrences of [/tmp/at/s3/] that share a slash: the scan takes the
    first one out and goes on after it, so the second is not one any more. *)
Example id_diff_overlapping :
  id_diff overlapping_env upload_and_name
  = (Responded {| resp_body := Html "tmp/at/s3/draft-a-00.txt";
                  resp_status := 200 |},
     [ CallGetTextIdFromFile {| fs_filename := "draft-a-00.txt"; fs_content := "" |}
         "/tmp/at";
       CallGetLatest "draft-b-02" "https://datatracker.ietf.org/latest" WithLogger;
       CallGetTextIdFromUrl "https://www.ietf.org/archive/id/draft-b-02.txt"
         "/tmp/at";
       CallIdDiff "/tmp/at/s3/draft-a-00.txt" "/tmp/at/s4/draft-b-02.txt"
         false false ]).
Proof. reflexivity. Qed.

Example overlapping_scan :
  scanned "/tmp/at/s3/" overlapping_output [""; "tmp/at/s3/draft-a-00.txt"].
Proof.
  apply (scanned_cut "/tmp/at/s3/" "" "tmp/at/s3/draft-a-00.txt");
    [reflexivity|]. apply scanned_end. reflexivity.
Qed.

(** The diff of an uploaded [draft-a-00.txt] against [draft-b-02] when the
    tool's output is [joining_output]: taking [/tmp/at/s3/] out of it leaves
    a text that starts with [/tmp/at/s3/]. *)
Example id_diff_joining :
  id_diff joining_env upload_and_name
  = (Responded {| resp_body := Html "/tmp/at/s3/draft-a-00.txt";
                  resp_status := 200 |},
     [ CallGetTextIdFromFile {| fs_filename := "draft-a-00.txt"; fs_content := "" |}
         "/tmp/at";
       CallGetLatest "draft-b-02" "https://datatracker.ietf.org/latest" WithLogger;
       CallGetTextIdFromUrl "https://www.ietf.org/archive/id/draft-b-02.txt"
         "/tmp/at";
       CallIdDiff "/tmp/at/s3/draft-a-00.txt" "/tmp/at/s4/draft-b-02.txt"
         false false ]).
Proof. reflexivity. Qed.

(** C7, as stated, fails: one scan does not see the occurrence that forms
    where the text before and after a removed occurrence meet. *)
Lemma diff_hides_staging_paths_refuted : ~ diff_hides_staging_paths.
Proof.
  intros H.
  edestruct (H joining_env upload_and_name) as [Hfirst _].
  - reflexivity.
  - reflexivity.
  - reflexivity.
  - reflexivity.
  - exact id_diff_joining.
  - vm_compute in Hfirst. discriminate Hfirst.
Qed.

(** * Further properties of the handlers *)

(** Running a handler symbolically: one case analysis on the innermost
    thing a [match] of the goal looks at. *)
Ltac exec_step :=
  match goal with
  | |- context [match ?x with _ => _ end] =>
      lazymatch x with
      | context [match _ with _ => _ end] => fail
      | _ => destruct x eqn:?
      end
  end.

Ltac exec :=
  cbv [view bind call emit ret raise return_ return_from read_local try_except
       bad_request find_handler log conversion_errors xml2rfc_error];
  repeat (exec_step; cbv beta iota).

(** What the tests along a path say, as equations. *)
Ltac facts :=
  repeat match goal with
         | H : _ && _ = true |- _ => apply andb_true_iff in H as [? ?]
         | H : String.eqb _ _ = true |- _ => apply String.eqb_eq in H
         | H : String.eqb _ _ = false |- _ => apply String.eqb_neq in H
         | H : negb _ = true |- _ => apply negb_true_iff in H
         | H : negb _ = false |- _ => apply negb_false_iff in H
         end.

(** A property of every event of an explicit trace. *)
Ltac each_event :=
  simpl;
  repeat match goal with
         | |- Forall _ (_ :: _) => constructor
         | |- Forall _ [] => constructor
         end.


(** ** Uploads that are turned away *)

(** X1. An upload whose filename is empty is answered 400 "Filename is
    missing" by render, validate and svgcheck, and nothing but the log line
    has happened by then. *)
Theorem empty_filename_rejected (env : Env) (format : string) (req : Request)
    (file : FileStorage) :
  files req !! "file" = Some file ->
  fs_filename file = "" ->
  let answer :=
    (Responded (error_answer "Filename is missing"),
     [Log INFO "filename missing"]) in
  render env format req = answer
  /\ validate env req = answer
  /\ svgcheck env req = answer.
Proof.
  intros Hfile Hname.
  unfold render, render_body, validate, validate_body, svgcheck, svgcheck_body.
  rewrite Hfile, Hname. repeat split.
Qed.

Lemma empty_filename_rejected_witness :
  render quiet_env "xml" (upload "file" "")
  = (Responded (error_answer "Filename is missing"),
     [Log INFO "filename missing"]).
Proof.
  apply (empty_filename_rejected quiet_env "xml" (upload "file" "")
           {| fs_filename := ""; fs_content := "" |}).
  - reflexivity.
  - reflexivity.
Defined.

(** X2. A named upload whose name [allowed_file] does not accept is
    answered 400 "Input file format not supported" before anything is
    staged; svgcheck asks [allowed_file] for the process [svgcheck], render
    and validate for the default one. *)
Theorem unsupported_input_not_staged (env : Env) (format : string)
    (req : Request) (file : FileStorage) :
  files req !! "file" = Some file ->
  fs_filename file <> "" ->
  let answer :=
    (Responded (error_answer "Input file format not supported"),
     [Log INFO ("File format not supportted: " +:+ fs_filename file)]) in
  (allowed_file env (fs_filename file) None = false ->
   render env format req = answer /\ validate env req = answer)
  /\ (allowed_file env (fs_filename file) (Some "svgcheck") = false ->
      svgcheck env req = answer).
Proof.
  intros Hfile Hname.
  unfold render, render_body, validate, validate_body, svgcheck, svgcheck_body.
  rewrite Hfile, (eqb_neq_false _ _ Hname), (file_truthy_named _ Hname).
  split.
  - intros ->. split; reflexivity.
  - intros ->. reflexivity.
Qed.

Lemma unsupported_input_not_staged_witness :
  svgcheck quiet_env (upload "file" "draft-a-00.xml")
  = (Responded (error_answer "Input file format not supported"),
     [Log INFO "File format not supportted: draft-a-00.xml"]).
Proof.
  apply (unsupported_input_not_staged quiet_env "xml"
           (upload "file" "draft-a-00.xml")
           {| fs_filename := "draft-a-00.xml"; fs_content := "" |}).
  - reflexivity.
  - discriminate.
  - reflexivity.
Defined.

(** ** [render] *)

(** X3. Every call [render] makes is one of the pipeline, in its place:
    [process_file] on the accepted upload, [get_xml] on what [process_file]
    returned, and [get_html], [get_text] or [get_pdf] only for the format
    of that name and on what [get_xml] returned.  No other function of
    [at.utils] is called. *)
Theorem render_calls_justified (env : Env) (format : string) (req : Request) :
  Forall (render_event env format req) (render env format req).2.
Proof.
  unfold render, render_body. exec.
  all: each_event; facts.
  all: simpl; unfold accepted_upload, converted_upload; try exact I.
  all: repeat split; eauto 8.
Qed.

Lemma accepted_upload_tests (env : Env) (req : Request) (process : option string)
    (file : FileStorage) :
  accepted_upload env req process file ->
  files req !! "file" = Some file
  /\ String.eqb (fs_filename file) "" = false
  /\ file_truthy file && allowed_file env (fs_filename file) process = true.
Proof.
  intros (Hfile & Hname & Hallowed). split; [exact Hfile|].
  rewrite (eqb_neq_false _ _ Hname), (file_truthy_named _ Hname), Hallowed.
  split; reflexivity.
Qed.

(** X4. With an accepted upload that [process_file] and [get_xml] convert,
    [render] asks [send_from_directory] for a file of the staging directory
    of the upload and ends as that call ends: with the response it builds,
    or with the exception it raises ([NotFound] when the file is not there).
    The file is the XML itself for [xml], and for [html], [text], [pdf] what
    the renderer of that name made of the XML; its name is [get_file]
    applied twice to the path. *)
Theorem render_delivers (env : Env) (format : string) (req : Request)
    (file : FileStorage) (dir name xml : string) :
  accepted_upload env req None file ->
  process_file env file (UPLOAD_DIR env) = inr (dir, name) ->
  get_xml env name = inr xml ->
  let chain := [CallProcessFile file (UPLOAD_DIR env); CallGetXml name] in
  (format = "xml" -> render env format req = (delivered env dir xml, chain))
  /\ (forall out, format = "html" -> get_html env xml = inr out ->
        render env format req
        = (delivered env dir out, chain ++ [CallGetHtml xml]))
  /\ (forall out, format = "text" -> get_text env xml = inr out ->
        render env format req
        = (delivered env dir out, chain ++ [CallGetText xml]))
  /\ (forall out, format = "pdf" -> get_pdf env xml = inr out ->
        render env format req
        = (delivered env dir out, chain ++ [CallGetPdf xml])).
Proof.
  intros Hup Hproc Hxml.
  destruct (accepted_upload_tests _ _ _ _ Hup) as (Hfile & Hname & Hallowed).
  unfold render, render_body, delivered.
  rewrite Hfile, Hname, Hallowed, Hproc. simpl.
  rewrite Hxml. simpl.
  split; [|split; [|split]].
  - intros ->. simpl. destruct (send_from_directory env _ _); reflexivity.
  - intros out -> Hout. simpl. rewrite Hout. simpl.
    destruct (send_from_directory env _ _); reflexivity.
  - intros out -> Hout. simpl. rewrite Hout. simpl.
    destruct (send_from_directory env _ _); reflexivity.
  - intros out -> Hout. simpl. rewrite Hout. simpl.
    destruct (send_from_directory env _ _); reflexivity.
Qed.

Lemma quiet_upload_accepted (name : string) (process : option string) :
  name <> "" ->
  allowed_file quiet_env name process = true ->
  accepted_upload quiet_env (upload "file" name) process
    {| fs_filename := name; fs_content := "" |}.
Proof.
  intros Hname Hallowed. split; [|split; assumption].
  unfold upload; simpl. apply lookup_singleton_eq.
Qed.

Lemma render_delivers_witness :
  render quiet_env "pdf" (upload "file" "draft-a-00.md")
  = (Responded {| resp_body := Attachment "/tmp/at/s0" "draft-a-00.md.pdf";
                  resp_status := 200 |},
     [ CallProcessFile {| fs_filename := "draft-a-00.md"; fs_content := "" |}
         "/tmp/at";
       CallGetXml "/tmp/at/s0/draft-a-00.md";
       CallGetPdf "/tmp/at/s0/draft-a-00.md" ]).
Proof.
  refine (proj2 (proj2 (proj2
            (render_delivers quiet_env "pdf" (upload "file" "draft-a-00.md")
               {| fs_filename := "draft-a-00.md"; fs_content := "" |}
               "/tmp/at/s0" "/tmp/at/s0/draft-a-00.md" "/tmp/at/s0/draft-a-00.md"
               _ _ _)))
            "/tmp/at/s0/draft-a-00.md.pdf" _ _).
  - apply quiet_upload_accepted; [discriminate|reflexivity].
  - reflexivity.
  - reflexivity.
  - reflexivity.
  - reflexivity.
Defined.

(** The same upload when the staged file has gone by the time it is asked
    for: the conversions have run and [NotFound] leaves the handler. *)
Example render_file_gone :
  render swept_env "pdf" (upload "file" "draft-a-00.md")
  = (Unhandled (Exn NotFound "404 Not Found"),
     [ CallProcessFile {| fs_filename := "draft-a-00.md"; fs_content := "" |}
         "/tmp/at";
       CallGetXml "/tmp/at/s0/draft-a-00.md";
       CallGetPdf "/tmp/at/s0/draft-a-00.md" ]).
Proof. reflexivity. Qed.

(** X5. When [process_file] fails on an accepted upload, [render] and
    [validate] answer 400 with the converter's prefix before the message
    for a [KramdownError], [MmarkError] or [TextError] and let any other
    exception through; either way nothing else is called. *)
Theorem conversion_failures_answered (env : Env) (format : string)
    (req : Request) (file : FileStorage) (e : exn) :
  accepted_upload env req None file ->
  process_file env file (UPLOAD_DIR env) = inl e ->
  let outcome :=
    match conversion_prefix (exn_cls e) with
    | Some prefix => Responded (error_answer (prefix +:+ exn_str e))
    | None => Unhandled e
    end in
  render env format req = (outcome, [CallProcessFile file (UPLOAD_DIR env)])
  /\ validate env req = (outcome, [CallProcessFile file (UPLOAD_DIR env)]).
Proof.
  intros Hup Hproc.
  destruct (accepted_upload_tests _ _ _ _ Hup) as (Hfile & Hname & Hallowed).
  unfold render, render_body, validate, validate_body.
  rewrite Hfile, Hname, Hallowed, Hproc.
  destruct e as [c msg]. destruct c; split; reflexivity.
Qed.

Lemma conversion_failures_answered_witness :
  render (sample_env kramdown_fails draft_name_of "") "html"
    (upload "file" "draft-a-00.md")
  = (Responded (error_answer "kramdown-rfc error: draft.md: parse error"),
     [ CallProcessFile {| fs_filename := "draft-a-00.md"; fs_content := "" |}
         "/tmp/at" ]).
Proof.
  refine (proj1 (conversion_failures_answered
                   (sample_env kramdown_fails draft_name_of "") "html"
                   (upload "file" "draft-a-00.md")
                   {| fs_filename := "draft-a-00.md"; fs_content := "" |}
                   (Exn KramdownError "draft.md: parse error") _ _)).
  - split; [apply lookup_singleton_eq|]. split; [discriminate|reflexivity].
  - reflexivity.
Defined.

(** X6. An [XML2RFCError] is answered 400 "xml2rfc error: " and the
    message wherever the pipeline raises it after [process_file]: in
    [get_xml], in the renderer of the requested format, and in
    [validate_xml]. *)
Theorem xml2rfc_failures_answered (env : Env) (format : string) (req : Request)
    (file : FileStorage) (dir name : string) (e : exn) :
  accepted_upload env req None file ->
  process_file env file (UPLOAD_DIR env) = inr (dir, name) ->
  exn_cls e = XML2RFCError ->
  let answer := Responded (error_answer ("xml2rfc error: " +:+ exn_str e)) in
  let staged := CallProcessFile file (UPLOAD_DIR env) in
  (get_xml env name = inl e ->
   render env format req = (answer, [staged; CallGetXml name]))
  /\ (forall xml, get_xml env name = inr xml ->
        (format = "html" -> get_html env xml = inl e ->
         render env format req
         = (answer, [staged; CallGetXml name; CallGetHtml xml]))
        /\ (format = "text" -> get_text env xml = inl e ->
            render env format req
            = (answer, [staged; CallGetXml name; CallGetText xml]))
        /\ (format = "pdf" -> get_pdf env xml = inl e ->
            render env format req
            = (answer, [staged; CallGetXml name; CallGetPdf xml])))
  /\ (validate_xml env name = inl e ->
      validate env req = (answer, [staged; CallValidateXml name])).
Proof.
  intros Hup Hproc Hcls.
  destruct (accepted_upload_tests _ _ _ _ Hup) as (Hfile & Hname & Hallowed).
  unfold render, render_body, validate, validate_body.
  rewrite Hfile, Hname, Hallowed, Hproc. simpl.
  destruct e as [c msg]. simpl in Hcls. subst c.
  split; [|split].
  - intros ->. reflexivity.
  - intros xml ->. simpl. split; [|split].
    + intros -> ->. reflexivity.
    + intros -> ->. reflexivity.
    + intros -> ->. reflexivity.
  - intros ->. reflexivity.
Qed.

Lemma xml2rfc_failures_answered_witness :
  render broken_xml_env "text" (upload "file" "draft-a-00.xml")
  = (Responded (error_answer "xml2rfc error: not well-formed"),
     [ CallProcessFile {| fs_filename := "draft-a-00.xml"; fs_content := "" |}
         "/tmp/at";
       CallGetXml "/tmp/at/s0/draft-a-00.xml" ]).
Proof.
  refine (proj1 (xml2rfc_failures_answered broken_xml_env "text"
                   (upload "file" "draft-a-00.xml")
                   {| fs_filename := "draft-a-00.xml"; fs_content := "" |}
                   "/tmp/at/s0" "/tmp/at/s0/draft-a-00.xml"
                   (Exn XML2RFCError "not well-formed") _ _ _) _).
  - split; [apply lookup_singleton_eq|]. split; [discriminate|reflexivity].
  - reflexivity.
  - reflexivity.
  - reflexivity.
Defined.

(** ** [validate] *)

(** X7. [validate] calls nothing but [process_file] on the accepted upload
    and [validate_xml] on what [process_file] returned; when both succeed
    the answer is the validation log as JSON with status 200. *)
Theorem validate_reports (env : Env) (req : Request) :
  Forall (validate_event env req) (validate env req).2
  /\ (forall file dir name report,
        accepted_upload env req None file ->
        process_file env file (UPLOAD_DIR env) = inr (dir, name) ->
        validate_xml env name = inr report ->
        validate env req
        = (Responded {| resp_body := Json report; resp_status := 200 |},
           [CallProcessFile file (UPLOAD_DIR env); CallValidateXml name])).
Proof.
  split.
  - unfold validate, validate_body. exec.
    all: each_event; facts.
    all: simpl; unfold accepted_upload; try exact I.
    all: repeat split; eauto 8.
  - intros file dir name report Hup Hproc Hreport.
    destruct (accepted_upload_tests _ _ _ _ Hup) as (Hfile & Hname & Hallowed).
    unfold validate, validate_body.
    rewrite Hfile, Hname, Hallowed, Hproc. simpl. rewrite Hreport. reflexivity.
Qed.

Lemma validate_reports_witness :
  validate quiet_env (upload "file" "draft-a-00.txt")
  = (Responded {| resp_body := Json (JDict []); resp_status := 200 |},
     [ CallProcessFile {| fs_filename := "draft-a-00.txt"; fs_content := "" |}
         "/tmp/at";
       CallValidateXml "/tmp/at/s0/draft-a-00.txt" ]).
Proof.
  refine (proj2 (validate_reports quiet_env (upload "file" "draft-a-00.txt"))
            {| fs_filename := "draft-a-00.txt"; fs_content := "" |}
            "/tmp/at/s0" "/tmp/at/s0/draft-a-00.txt" (JDict []) _ _ _).
  - apply quiet_upload_accepted; [discriminate|reflexivity].
  - reflexivity.
  - reflexivity.
Defined.

(** ** [svgcheck] *)

(** X8. [svgcheck] calls nothing but [save_file] on an upload accepted for
    the process [svgcheck] and [get_svgcheck] on the saved file.  When both
    succeed the answer is [{svgcheck: result, svg: svg}] with status 200; a
    [SvgCheckError] from either is answered 400 with its message. *)
Theorem svgcheck_reports (env : Env) (req : Request) :
  Forall (svgcheck_event env req) (svgcheck env req).2
  /\ (forall file dir name,
        accepted_upload env req (Some "svgcheck") file ->
        let saved := CallSaveFile file (UPLOAD_DIR env) in
        (forall e, save_file env file (UPLOAD_DIR env) = inl e ->
                   exn_cls e = SvgCheckError ->
                   svgcheck env req
                   = (Responded (error_answer (exn_str e)), [saved]))
        /\ (save_file env file (UPLOAD_DIR env) = inr (dir, name) ->
            (forall e, get_svgcheck env name = inl e ->
                       exn_cls e = SvgCheckError ->
                       svgcheck env req
                       = (Responded (error_answer (exn_str e)),
                          [saved; CallSvgCheck name]))
            /\ (forall svg result, get_svgcheck env name = inr (svg, result) ->
                  svgcheck env req
                  = (Responded
                       {| resp_body :=
                            Json (JDict [("svgcheck", result); ("svg", svg)]);
                          resp_status := 200 |},
                     [saved; CallSvgCheck name])))).
Proof.
  split.
  - unfold svgcheck, svgcheck_body. exec.
    all: each_event; facts.
    all: simpl; unfold accepted_upload; try exact I.
    all: repeat split; eauto 8.
  - intros file dir name Hup saved.
    destruct (accepted_upload_tests _ _ _ _ Hup) as (Hfile & Hname & Hallowed).
    unfold svgcheck, svgcheck_body.
    rewrite Hfile, Hname, Hallowed.
    split.
    + intros [c msg] -> Hcls. simpl in Hcls. subst c. reflexivity.
    + intros ->. simpl. split.
      * intros [c msg] -> Hcls. simpl in Hcls. subst c. reflexivity.
      * intros svg result ->. reflexivity.
Qed.

Lemma svgcheck_reports_witness :
  svgcheck broken_svg_env (upload "file" "figure.svg")
  = (Responded (error_answer "not an SVG"),
     [ CallSaveFile {| fs_filename := "figure.svg"; fs_content := "" |} "/tmp/at";
       CallSvgCheck "/tmp/at/s1/figure.svg" ]).
Proof.
  refine (proj1 (proj2 (proj2 (svgcheck_reports broken_svg_env
                                 (upload "file" "figure.svg"))
                          {| fs_filename := "figure.svg"; fs_content := "" |}
                          "/tmp/at/s1" "/tmp/at/s1/figure.svg" _) _)
            (Exn SvgCheckError "not an SVG") _ _).
  - split; [apply lookup_singleton_eq|]. split; [discriminate|reflexivity].
  - reflexivity.
  - reflexivity.
  - reflexivity.
Defined.

(** ** [idnits] *)

(** X9. Without a [url] parameter, or with one that is blank, idnits is
    answered 400 "URL is missing" and nothing is called. *)
Theorem idnits_url_required (env : Env) (req : Request) :
  PyString.strip (values_get_str req "url" "") = "" ->
  idnits env req
  = (Responded (error_answer "URL is missing"), [Log INFO "URL is missing"]).
Proof.
  intros Hurl. unfold idnits, idnits_body. rewrite Hurl. reflexivity.
Qed.

Lemma idnits_url_required_witness :
  idnits quiet_env (query [("url", "   "); ("year", "2020")])
  = (Responded (error_answer "URL is missing"), [Log INFO "URL is missing"]).
Proof.
  apply (idnits_url_required quiet_env (query [("url", "   "); ("year", "2020")])).
  reflexivity.
Defined.

(** X10. Every call [idnits] makes is in its place: the URL check on the
    stripped [url], the download of that URL only after the check returned
    true, and idnits only on the downloaded file, with [verbose] stripped
    and defaulting to [0] and [year] stripped and defaulting to empty. *)
Theorem idnits_calls_justified (env : Env) (req : Request) :
  Forall (idnits_event env req) (idnits env req).2.
Proof.
  unfold idnits, idnits_body. exec.
  all: each_event; facts.
  all: unfold idnits_event; try exact I.
  all: repeat split; eauto 8.
Qed.

(** X11. Once the URL is accepted: a [TextProcessingError], [InvalidURL]
    or [DownloadError] of the download is answered 400 with its message; a
    downloaded file is checked and the report is the plain-text answer; an
    exception of idnits itself is not caught. *)
Theorem idnits_outcomes (env : Env) (req : Request) (url : string) :
  PyString.strip (values_get_str req "url" "") = url ->
  url <> "" ->
  is_valid_url env url (ALLOWED_DOMAINS env) = inr true ->
  let checked :=
    [ CallIsValidUrl url (ALLOWED_DOMAINS env);
      CallGetTextIdFromUrl url (UPLOAD_DIR env) ] in
  (forall e,
     get_text_id_from_url env url (UPLOAD_DIR env) = inl e ->
     exn_cls e ∈ [TextProcessingError; InvalidURL; DownloadError] ->
     idnits env req = (Responded (error_answer (exn_str e)), checked))
  /\ (forall dir name,
        get_text_id_from_url env url (UPLOAD_DIR env) = inr (dir, name) ->
        let verbose := PyString.strip (values_get_str req "verbose" "0") in
        let year := PyString.strip (values_get_str req "year" "") in
        let show_text := negb (flag_of req "hidetext") in
        let submit_check := flag_of req "submitcheck" in
        idnits env req
        = (match get_idnits env name verbose show_text year submit_check with
           | inr output =>
               Responded {| resp_body := PlainText output; resp_status := 200 |}
           | inl e => Unhandled e
           end,
           checked ++ [CallIdnits name verbose show_text year submit_check])).
Proof.
  intros Hurl Hnonempty Hvalid checked. split.
  - intros [c msg] Hfetch Hcls.
    unfold idnits, idnits_body.
    rewrite Hurl, (eqb_neq_false _ _ Hnonempty), Hvalid. simpl.
    rewrite Hfetch. simpl in Hcls.
    rewrite !elem_of_cons, elem_of_nil in Hcls.
    destruct Hcls as [->|[->|[->|[]]]]; reflexivity.
  - intros dir name Hfetch verbose year show_text submit_check.
    unfold idnits, idnits_body.
    rewrite Hurl, (eqb_neq_false _ _ Hnonempty), Hvalid. simpl.
    rewrite Hfetch. simpl.
    subst verbose year show_text submit_check. unfold flag_of.
    destruct (truthy (values_get req "hidetext" (VBool false)));
      destruct (truthy (values_get req "submitcheck" (VBool false))); simpl;
      match goal with
      | |- context [get_idnits env ?a ?b ?c ?d ?f] =>
          destruct (get_idnits env a b c d f)
      end; reflexivity.
Qed.

Lemma idnits_outcomes_witness :
  idnits offline_env (query [("url", "https://www.ietf.org/id/draft-a-01.txt")])
  = (Responded (error_answer "404 Not Found"),
     [ CallIsValidUrl "https://www.ietf.org/id/draft-a-01.txt"
         ["www.ietf.org"; "www.rfc-editor.org"];
       CallGetTextIdFromUrl "https://www.ietf.org/id/draft-a-01.txt" "/tmp/at" ]).
Proof.
  refine (proj1 (idnits_outcomes offline_env
                   (query [("url", "https://www.ietf.org/id/draft-a-01.txt")])
                   "https://www.ietf.org/id/draft-a-01.txt" _ _ _)
            (Exn DownloadError "404 Not Found") _ _).
  - reflexivity.
  - discriminate.
  - reflexivity.
  - reflexivity.
  - simpl. rewrite !elem_of_cons. right. right. left. reflexivity.
Defined.

(** X12. The handlers rely on the URL check raising.  If it returns a false
    value instead, idnits does not download and ends in an unhandled
    [UnboundLocalError] for [filename], while abnf/extract, which does not
    look at the value, downloads the URL all the same. *)
Theorem url_check_value_unused (env : Env) (req : Request) (url : string) :
  PyString.strip (values_get_str req "url" "") = url ->
  url <> "" ->
  is_valid_url env url (ALLOWED_DOMAINS env) = inr false ->
  idnits env req
  = (Unhandled (Exn UnboundLocalError "filename"),
     [CallIsValidUrl url (ALLOWED_DOMAINS env)])
  /\ CallGetTextIdFromUrl url (UPLOAD_DIR env) ∈ (abnf_extract env req).2.
Proof.
  intros Hurl Hnonempty Hvalid. split.
  - unfold idnits, idnits_body.
    rewrite Hurl, (eqb_neq_false _ _ Hnonempty), Hvalid. reflexivity.
  - unfold abnf_extract, abnf_extract_body.
    rewrite Hurl, (eqb_neq_false _ _ Hnonempty). simpl. rewrite Hvalid. simpl.
    destruct (get_text_id_from_url env url (UPLOAD_DIR env)) as [e|[d f]]; simpl.
    + repeat (case_decide; simpl); rewrite !elem_of_cons; auto.
    + destruct (extract_abnf env f); simpl;
        repeat (case_decide; simpl); rewrite !elem_of_cons; auto.
Qed.

Lemma url_check_value_unused_witness :
  idnits lenient_env (query [("url", "https://evil.example/x.txt")])
  = (Unhandled (Exn UnboundLocalError "filename"),
     [ CallIsValidUrl "https://evil.example/x.txt"
         ["www.ietf.org"; "www.rfc-editor.org"] ])
  /\ CallGetTextIdFromUrl "https://evil.example/x.txt" "/tmp/at"
       ∈ (abnf_extract lenient_env
            (query [("url", "https://evil.example/x.txt")])).2.
Proof.
  apply (url_check_value_unused lenient_env
           (query [("url", "https://evil.example/x.txt")])
           "https://evil.example/x.txt").
  - reflexivity.
  - discriminate.
  - reflexivity.
Defined.

(** ** [abnf/extract] *)

(** X13. With neither [url] nor [doc] (blank counts as missing),
    abnf/extract is answered 400 "URL/document name must be provided" and
    nothing is called. *)
Theorem abnf_extract_requires_input (env : Env) (req : Request) :
  PyString.strip (values_get_str req "url" "") = "" ->
  PyString.strip (values_get_str req "doc" "") = "" ->
  abnf_extract env req
  = (Responded (error_answer "URL/document name must be provided"),
     [Log INFO "URL/document is missing"]).
Proof.
  intros Hurl Hdoc. unfold abnf_extract, abnf_extract_body.
  rewrite Hurl, Hdoc. reflexivity.
Qed.

Lemma abnf_extract_requires_input_witness :
  abnf_extract quiet_env (query [("doc", " ")])
  = (Responded (error_answer "URL/document name must be provided"),
     [Log INFO "URL/document is missing"]).
Proof.
  apply (abnf_extract_requires_input quiet_env (query [("doc", " ")])).
  - reflexivity.
  - reflexivity.
Defined.

(** X14. No [LatestDraftNotFound], [DownloadError], [TextProcessingError]
    or [InvalidURL] leaves abnf/extract unhandled, whichever collaborator
    raised it. *)
Theorem abnf_extract_catches (env : Env) (req : Request) (e : exn) :
  (abnf_extract env req).1 = Unhandled e ->
  abnf_extract_caught (exn_cls e) = false.
Proof.
  unfold abnf_extract, abnf_extract_body. exec.
  all: simpl; intros [= <-].
  all: destruct (exn_cls _); try reflexivity; congruence.
Qed.

Lemma abnf_extract_catches_witness :
  abnf_extract_caught (exn_cls (Exn OtherError "disk full")) = false.
Proof.
  apply (abnf_extract_catches full_disk_env
           (query [("url", "https://www.ietf.org/id/draft-a-01.txt")])).
  reflexivity.
Defined.

(** X15. Every call abnf/extract makes is in its place.  A [url] goes
    through the URL check and the registry is not asked, whatever [doc] is;
    without a [url], the registry is asked for [doc] and the URL it returns
    is downloaded without a URL check; the ABNF is extracted from a
    downloaded file only. *)
Theorem abnf_extract_calls_justified (env : Env) (req : Request) :
  Forall (abnf_extract_event env req) (abnf_extract env req).2.
Proof.
  unfold abnf_extract, abnf_extract_body. exec.
  all: each_event; facts.
  all: unfold abnf_extract_event; try exact I.
  all: repeat split; eauto 8.
Qed.

(** ** [iddiff] *)

Lemma truthy_str_true (s : string) : truthy (VStr s) = true -> s <> "".
Proof. simpl. rewrite negb_true_iff. apply String.eqb_neq. Qed.

Lemma truthy_str_false (s : string) : truthy (VStr s) = false -> s = "".
Proof. simpl. rewrite negb_false_iff. apply String.eqb_eq. Qed.

(** The tests of [id_diff] along a path, as facts about the names. *)
Ltac name_facts :=
  repeat match goal with
         | H : _ && _ = true |- _ => apply andb_true_iff in H as [? ?]
         | H : _ && _ = false |- _ => apply andb_false_iff in H as [H|H]
         | H : negb _ = true |- _ => apply negb_true_iff in H
         | H : negb _ = false |- _ => apply negb_false_iff in H
         | H : truthy (VStr _) = true |- _ => apply truthy_str_true in H
         | H : truthy (VStr _) = false |- _ => apply truthy_str_false in H
         | H : String.eqb _ _ = true |- _ => apply String.eqb_eq in H
         | H : String.eqb _ _ = false |- _ => apply String.eqb_neq in H
         end.

(** A run of [id_diff], phase by phase: it ends in the first resolution,
    in the second, or in the comparison. *)
Lemma id_diff_phases (env : Env) (req : Request) :
  let first := first_draft env req (doc_1_of req) (url_1_of req) in
  let second := second_draft env req (doc_2_of req) (url_2_of req) in
  let compared := compare env (flag_of req "table") (flag_of req "wdiff") in
  (exists r t1, first = (Returned r, t1) /\ id_diff env req = (Responded r, t1))
  \/ (exists e t1, first = (Raised e, t1) /\ id_diff env req = (Unhandled e, t1))
  \/ (exists l1 t1 r t2,
        first = (Val l1, t1) /\ second l1 = (Returned r, t2)
        /\ id_diff env req = (Responded r, t1 ++ t2))
  \/ (exists l1 t1 e t2,
        first = (Val l1, t1) /\ second l1 = (Raised e, t2)
        /\ id_diff env req = (Unhandled e, t1 ++ t2))
  \/ (exists l1 t1 l2 t2,
        first = (Val l1, t1) /\ second l1 = (Val l2, t2)
        /\ id_diff env req
           = ((view (compared l1 l2)).1, t1 ++ t2 ++ (compared l1 l2).2)).
Proof.
  intros first second compared. subst first second compared.
  unfold id_diff. rewrite id_diff_body_eq.
  destruct (first_draft env req (doc_1_of req) (url_1_of req))
    as [[l1|r|e] t1]; cbn [bind].
  - destruct (second_draft env req (doc_2_of req) (url_2_of req) l1)
      as [[l2|r|e] t2] eqn:Hsecond; cbn [bind].
    + do 4 right. exists l1, t1, l2, t2.
      split; [reflexivity|]. split; [exact Hsecond|].
      destruct (compare env _ _ l1 l2) as [[?|?|?] t3]; reflexivity.
    + do 2 right; left. exists l1, t1, r, t2.
      split; [reflexivity|]. split; [exact Hsecond|reflexivity].
    + do 3 right; left. exists l1, t1, e, t2.
      split; [reflexivity|]. split; [exact Hsecond|reflexivity].
  - left. exists r, t1. split; reflexivity.
  - right; left. exists e, t1. split; reflexivity.
Qed.

(** Every event of a run belongs to one of the three phases. *)
Lemma id_diff_trace_split (env : Env) (req : Request) (P : event -> Prop) :
  Forall P (first_draft env req (doc_1_of req) (url_1_of req)).2 ->
  (forall l1, Forall P (second_draft env req (doc_2_of req) (url_2_of req) l1).2) ->
  (forall l1 l2,
     Forall P (compare env (flag_of req "table") (flag_of req "wdiff") l1 l2).2) ->
  Forall P (id_diff env req).2.
Proof.
  intros H1 H2 H3.
  destruct (id_diff_phases env req)
    as [(r & t1 & Hf & ->)
       |[(e & t1 & Hf & ->)
        |[(l1 & t1 & r & t2 & Hf & Hs & ->)
         |[(l1 & t1 & e & t2 & Hf & Hs & ->)
          |(l1 & t1 & l2 & t2 & Hf & Hs & ->)]]]];
    rewrite Hf in H1; simpl in *; try exact H1;
    specialize (H2 l1); rewrite Hs in H2; rewrite !Forall_app; auto.
Qed.





(** X17. Without a [file_1] upload and with [doc_1], [url_1], [doc_2] and
    [url_2] all missing or blank, iddiff is answered 400 "No documents to
    compare" and nothing is called, even when a [file_2] was uploaded. *)
Theorem iddiff_requires_first (env : Env) (req : Request) :
  files req !! "file_1" = None ->
  PyString.strip (values_get_str req "doc_1" "") = "" ->
  PyString.strip (values_get_str req "url_1" "") = "" ->
  PyString.strip (values_get_str req "doc_2" "") = "" ->
  PyString.strip (values_get_str req "url_2" "") = "" ->
  id_diff env req
  = (Responded (error_answer "No documents to compare"),
     [Log INFO "no documents to compare"]).
Proof.
  intros Hfile Hd1 Hu1 Hd2 Hu2.
  unfold id_diff, id_diff_body, iddiff_names.
  rewrite Hd1, Hu1, Hd2, Hu2, Hfile. simpl.
  unfold first_draft. rewrite Hfile. reflexivity.
Qed.

Lemma iddiff_requires_first_witness :
  id_diff quiet_env (upload "file_2" "draft-a-00.txt")
  = (Responded (error_answer "No documents to compare"),
     [Log INFO "no documents to compare"]).
Proof.
  apply (iddiff_requires_first quiet_env (upload "file_2" "draft-a-00.txt"));
    reflexivity.
Defined.

(** X18. When both drafts are given by name, the uploads and URLs of the
    request are not used: no upload is staged and no URL is checked. *)
Theorem iddiff_names_take_precedence (env : Env) (req : Request) :
  doc_1_of req <> "" ->
  doc_2_of req <> "" ->
  Forall (fun e => is_upload_or_url e = false) (id_diff env req).2.
Proof.
  intros Hd1 Hd2. apply id_diff_trace_split.
  - destruct (doc_1_of req); [congruence|].
    unfold first_draft. simpl. exec. all: each_event; reflexivity.
  - intros l1. destruct (doc_2_of req); [congruence|].
    unfold second_draft. simpl. exec. all: each_event; reflexivity.
  - intros l1 l2. unfold compare. exec. all: each_event; reflexivity.
Qed.

Lemma iddiff_names_take_precedence_witness :
  Forall (fun e => is_upload_or_url e = false)
    (id_diff quiet_env
       {| values := {[ "doc_1" := "draft-a-01"; "doc_2" := "draft-b-02";
                       "url_1" := "https://evil.example/x.txt" ]};
          files := {[ "file_1" := {| fs_filename := "draft-c-00.txt";
                                     fs_content := "" |} ]} |}).2.
Proof.
  apply iddiff_names_take_precedence.
  - vm_compute. discriminate.
  - vm_compute. discriminate.
Defined.

Lemma flag_of_given (req : Request) (key : string) :
  flag_of req key = true <-> flag_given req key.
Proof.
  rewrite <- truthy_flag_given. unfold flag_of.
  destruct (truthy (values_get req key (VBool false))); split; congruence.
Qed.

(** X19. Whenever iddiff runs the diff tool, the table layout is asked for
    exactly when [table] is present with a non-empty value and the word
    diff exactly when [wdiff] is: the value itself is not read. *)
Theorem iddiff_flags_follow_presence (env : Env) (req : Request)
    (old new : string) (table wdiff : bool) :
  CallIdDiff old new table wdiff ∈ (id_diff env req).2 ->
  (table = true <-> flag_given req "table")
  /\ (wdiff = true <-> flag_given req "wdiff").
Proof.
  intros Hin. rewrite <- !flag_of_given.
  pose proof (first_draft_quiet env req (doc_1_of req) (url_1_of req)) as [Hq1 _].
  destruct (id_diff_phases env req)
    as [(r & t1 & Hf & Hrun)
       |[(e & t1 & Hf & Hrun)
        |[(l1 & t1 & r & t2 & Hf & Hs & Hrun)
         |[(l1 & t1 & e & t2 & Hf & Hs & Hrun)
          |(l1 & t1 & l2 & t2 & Hf & Hs & Hrun)]]]];
    rewrite Hrun in Hin; rewrite Hf in Hq1; simpl in Hin, Hq1;
    try (exfalso; exact (not_diff_trace _ _ _ _ _ Hq1 Hin));
    pose proof (second_draft_quiet env req (doc_2_of req) (url_2_of req) l1)
      as [Hq2 _];
    rewrite Hs in Hq2; simpl in Hq2;
    rewrite !elem_of_app in Hin.
  - destruct Hin as [Hin|Hin]; exfalso;
      [exact (not_diff_trace _ _ _ _ _ Hq1 Hin)
      |exact (not_diff_trace _ _ _ _ _ Hq2 Hin)].
  - destruct Hin as [Hin|Hin]; exfalso;
      [exact (not_diff_trace _ _ _ _ _ Hq1 Hin)
      |exact (not_diff_trace _ _ _ _ _ Hq2 Hin)].
  - destruct Hin as [Hin|[Hin|Hin]];
      [exfalso; exact (not_diff_trace _ _ _ _ _ Hq1 Hin)
      |exfalso; exact (not_diff_trace _ _ _ _ _ Hq2 Hin)|].
    apply compare_calls in Hin as (_ & _ & _ & _ & _ & -> & ->).
    split; reflexivity.
Qed.

Lemma iddiff_flags_follow_presence_witness :
  (true = true <-> flag_given two_uploads "table")
  /\ (false = true <-> flag_given two_uploads "wdiff").
Proof.
  apply (iddiff_flags_follow_presence quiet_env two_uploads
           "/tmp/at/s3/draft-a-00.txt" "/tmp/at/s3/draft-a-01.txt").
  vm_compute. repeat constructor.
Defined.

(** X20. Every call [id_diff] makes is in its place: an upload is staged
    only if it is one of the two file parts, named and accepted; an explicit
    URL is checked, and downloaded only after the check returned true; the
    registry is asked for a given name or, with the original draft, when the
    second draft is inferred; any other download is of a URL the registry
    returned.  No converter or other tool than the diff is called. *)
Theorem iddiff_calls_justified (env : Env) (req : Request) :
  Forall (iddiff_event env req) (id_diff env req).2.
Proof.
  apply id_diff_trace_split.
  - unfold first_draft. exec.
    all: each_event; name_facts.
    all: unfold iddiff_event, iddiff_upload; try exact I; try congruence.
    all: repeat split; eauto 10.
  - intros l1. unfold second_draft. exec.
    all: each_event; name_facts.
    all: unfold iddiff_event, iddiff_upload, second_inferred;
      try exact I; try congruence.
    all: repeat split; eauto 10.
  - intros l1 l2. unfold compare. exec. all: each_event; exact I.
Qed.

(** X21. An uploaded draft of iddiff is turned away like any upload, with a
    message that says which: an empty filename gives "Filename of first
    draft missing" or "Filename of second draft missing", a name that is
    not accepted "First file format not supported" or "Second file format
    not supported".  The second upload is looked at only after the first
    draft has been resolved. *)
Theorem iddiff_upload_rejections (env : Env) (req : Request) (file : FileStorage) :
  (doc_1_of req = "" -> url_1_of req = "" ->
   files req !! "file_1" = Some file ->
   (fs_filename file = "" ->
    id_diff env req
    = (Responded (error_answer "Filename of first draft missing"),
       [Log INFO "first draft filename missing"]))
   /\ (fs_filename file <> "" ->
       allowed_file env (fs_filename file) None = false ->
       id_diff env req
       = (Responded (error_answer "First file format not supported"),
          [Log INFO ("File format not supportted: " +:+ fs_filename file)])))
  /\ (forall l1 t1,
        first_draft env req (doc_1_of req) (url_1_of req) = (Val l1, t1) ->
        doc_2_of req = "" -> url_2_of req = "" ->
        files req !! "file_2" = Some file ->
        (fs_filename file = "" ->
         id_diff env req
         = (Responded (error_answer "Filename of second draft missing"),
            t1 ++ [Log INFO "second draft filename missing"]))
        /\ (fs_filename file <> "" ->
            allowed_file env (fs_filename file) None = false ->
            id_diff env req
            = (Responded (error_answer "Second file format not supported"),
               t1 ++ [Log INFO ("File format not supportted: "
                                +:+ fs_filename file)]))).
Proof.
  split.
  - intros Hd Hu Hfile. unfold id_diff. rewrite id_diff_body_eq, Hd, Hu.
    unfold first_draft. simpl. rewrite Hfile. split.
    + intros ->. reflexivity.
    + intros Hname Hallowed.
      rewrite (eqb_neq_false _ _ Hname), (file_truthy_named _ Hname), Hallowed.
      reflexivity.
  - intros l1 t1 Hfirst Hd Hu Hfile.
    unfold id_diff. rewrite id_diff_body_eq, Hfirst, Hd, Hu.
    unfold second_draft. simpl. rewrite Hfile. split.
    + intros ->. reflexivity.
    + intros Hname Hallowed.
      rewrite (eqb_neq_false _ _ Hname), (file_truthy_named _ Hname), Hallowed.
      reflexivity.
Qed.

Lemma iddiff_upload_rejections_witness :
  id_diff quiet_env (upload "file_1" "draft-a-00.odt")
  = (Responded (error_answer "First file format not supported"),
     [Log INFO "File format not supportted: draft-a-00.odt"]).
Proof.
  refine (proj2 (proj1 (iddiff_upload_rejections quiet_env
                          (upload "file_1" "draft-a-00.odt")
                          {| fs_filename := "draft-a-00.odt"; fs_content := "" |})
                   _ _ _) _ _).
  - reflexivity.
  - reflexivity.
  - reflexivity.
  - discriminate.
  - reflexivity.
Defined.

(** X22. Two accepted uploads that are staged are compared in the order
    given, first as old and second as new.  The answer is the output of the
    tool with the two staging directories taken out, or 400 "iddiff error: "
    and the message when the tool raises an [IddiffError]; another exception
    of the tool is not caught. *)
Theorem iddiff_two_uploads (env : Env) (req : Request) (f1 f2 : FileStorage)
    (d1 n1 d2 n2 : string) :
  doc_1_of req = "" -> url_1_of req = "" ->
  doc_2_of req = "" -> url_2_of req = "" ->
  files req !! "file_1" = Some f1 -> files req !! "file_2" = Some f2 ->
  iddiff_upload env req f1 -> iddiff_upload env req f2 ->
  get_text_id_from_file env f1 (UPLOAD_DIR env) = inr (d1, n1) ->
  get_text_id_from_file env f2 (UPLOAD_DIR env) = inr (d2, n2) ->
  let table := flag_of req "table" in
  let wdiff := flag_of req "wdiff" in
  id_diff env req
  = (match get_id_diff env n1 n2 table wdiff with
     | inr output =>
         Responded {| resp_body := Html (strip_dir_paths output [d1; d2]);
                      resp_status := 200 |}
     | inl e =>
         if decide (exn_cls e = IddiffError)
         then Responded (error_answer ("iddiff error: " +:+ exn_str e))
         else Unhandled e
     end,
     [ CallGetTextIdFromFile f1 (UPLOAD_DIR env);
       CallGetTextIdFromFile f2 (UPLOAD_DIR env);
       CallIdDiff n1 n2 table wdiff ]).
Proof.
  intros Hd1 Hu1 Hd2 Hu2 Hfile1 Hfile2 (_ & Hname1 & Hallowed1)
         (_ & Hname2 & Hallowed2) Hstage1 Hstage2 table wdiff.
  subst table wdiff.
  unfold id_diff. rewrite id_diff_body_eq, Hd1, Hu1, Hd2, Hu2.
  unfold first_draft, second_draft, compare. simpl.
  rewrite Hfile1, Hfile2.
  rewrite (eqb_neq_false _ _ Hname1), (file_truthy_named _ Hname1), Hallowed1.
  rewrite Hstage1. simpl.
  rewrite (eqb_neq_false _ _ Hname2), (file_truthy_named _ Hname2), Hallowed2.
  rewrite Hstage2. simpl.
  destruct (get_id_diff env n1 n2 _ _) as [e|output]; simpl; [|reflexivity].
  destruct (decide (exn_cls e = IddiffError)); reflexivity.
Qed.

Lemma iddiff_two_uploads_witness :
  id_diff broken_diff_env two_uploads
  = (Responded (error_answer "iddiff error: cannot compare"),
     [ CallGetTextIdFromFile {| fs_filename := "draft-a-00.txt"; fs_content := "" |}
         "/tmp/at";
       CallGetTextIdFromFile {| fs_filename := "draft-a-01.txt"; fs_content := "" |}
         "/tmp/at";
       CallIdDiff "/tmp/at/s3/draft-a-00.txt" "/tmp/at/s3/draft-a-01.txt"
         true false ]).
Proof.
  refine (iddiff_two_uploads broken_diff_env two_uploads
            {| fs_filename := "draft-a-00.txt"; fs_content := "" |}
            {| fs_filename := "draft-a-01.txt"; fs_content := "" |}
            "/tmp/at/s3" "/tmp/at/s3/draft-a-00.txt"
            "/tmp/at/s3" "/tmp/at/s3/draft-a-01.txt" _ _ _ _ _ _ _ _ _ _);
    try reflexivity.
  - split; [left; reflexivity|]. split; [discriminate|reflexivity].
  - split; [right; reflexivity|]. split; [discriminate|reflexivity].
Defined.

Lemma replace_go_absent (p new s : string) :
  PyString.contains p s = false -> PyString.replace_go p new 0 s = s.
Proof.
  induction s as [|c s IH]; [reflexivity|].
  cbn [PyString.contains]. intros H. apply orb_false_iff in H as [Hsw Hrest].
  rewrite replace_go_pass by exact Hsw. f_equal. apply IH, Hrest.
Qed.

(** X23. A diff that mentions none of the staging directories followed by
    a slash comes back unchanged. *)
Theorem clean_diff_unchanged (output : string) (dir_paths : list string) :
  Forall (fun d => PyString.contains (d +:+ "/") output = false) dir_paths ->
  strip_dir_paths output dir_paths = output.
Proof.
  unfold strip_dir_paths. induction 1 as [|d ds Hd _ IH]; [reflexivity|].
  simpl. unfold PyString.replace at 2.
  destruct (d +:+ "/") as [|c p] eqn:Hp.
  { exfalso. exact (slash_path_nonempty d Hp). }
  rewrite replace_go_absent by exact Hd. exact IH.
Qed.

Lemma clean_diff_unchanged_witness :
  strip_dir_paths "--- draft-a-00.txt" ["/tmp/at/s3"; "/tmp/at/s4"]
  = "--- draft-a-00.txt".
Proof.
  apply clean_diff_unchanged.
  repeat constructor.
Defined.

(** X24. A registry that fails: for the first draft a
    [LatestDraftNotFound] or a [DownloadError] of the lookup is answered
    400 with its message; for a second draft given by name only a
    [LatestDraftNotFound] is, and a [DownloadError] of the lookup is not
    caught. *)
Theorem iddiff_registry_failures (env : Env) (req : Request) (e : exn) :
  (doc_1_of req <> "" ->
   get_latest env (doc_1_of req) (DT_LATEST_DRAFT_URL env) WithLogger = inl e ->
   exn_cls e ∈ [LatestDraftNotFound; DownloadError] ->
   id_diff env req
   = (Responded (error_answer (exn_str e)),
      [CallGetLatest (doc_1_of req) (DT_LATEST_DRAFT_URL env) WithLogger]))
  /\ (forall l1 t1,
        first_draft env req (doc_1_of req) (url_1_of req) = (Val l1, t1) ->
        doc_2_of req <> "" ->
        get_latest env (doc_2_of req) (DT_LATEST_DRAFT_URL env) WithLogger = inl e ->
        let asked :=
          t1 ++ [CallGetLatest (doc_2_of req) (DT_LATEST_DRAFT_URL env) WithLogger] in
        (exn_cls e = LatestDraftNotFound ->
         id_diff env req = (Responded (error_answer (exn_str e)), asked))
        /\ (exn_cls e = DownloadError ->
            id_diff env req = (Unhandled e, asked))).
Proof.
  split.
  - intros Hd Hlatest Hcls. unfold id_diff. rewrite id_diff_body_eq.
    unfold first_draft. rewrite (truthy_nonempty _ Hd). simpl.
    rewrite Hlatest. destruct e as [c msg]. simpl in Hcls.
    rewrite !elem_of_cons, elem_of_nil in Hcls.
    destruct Hcls as [->|[->|[]]]; reflexivity.
  - intros l1 t1 Hfirst Hd Hlatest asked. subst asked.
    unfold id_diff. rewrite id_diff_body_eq, Hfirst.
    unfold second_draft. rewrite (truthy_nonempty _ Hd). simpl.
    rewrite Hlatest. destruct e as [c msg]. simpl.
    split; intros ->; reflexivity.
Qed.

Lemma iddiff_registry_failures_witness :
  id_diff no_registry_env
    {| values := {[ "doc_2" := "draft-b-02" ]};
       files := {[ "file_1" := {| fs_filename := "draft-a-00.txt";
                                  fs_content := "" |} ]} |}
  = (Unhandled (Exn DownloadError "registry unreachable"),
     [ CallGetTextIdFromFile {| fs_filename := "draft-a-00.txt"; fs_content := "" |}
         "/tmp/at";
       CallGetLatest "draft-b-02" "https://datatracker.ietf.org/latest" WithLogger ]).
Proof.
  refine (proj2 (proj2 (iddiff_registry_failures no_registry_env
                          {| values := {[ "doc_2" := "draft-b-02" ]};
                             files := {[ "file_1" :=
                                           {| fs_filename := "draft-a-00.txt";
                                              fs_content := "" |} ]} |}
                          (Exn DownloadError "registry unreachable"))
                   {| file_1 := Some {| fs_filename := "draft-a-00.txt";
                                        fs_content := "" |};
                      dir_path_1 := Some "/tmp/at/s3";
                      filename_1 := Some "/tmp/at/s3/draft-a-00.txt" |}
                   [ CallGetTextIdFromFile
                       {| fs_filename := "draft-a-00.txt"; fs_content := "" |}
                       "/tmp/at" ] _ _ _) _).
  - reflexivity.
  - vm_compute. discriminate.
  - reflexivity.
  - reflexivity.
Defined.

(** * Tool versions *)

Section VersionFacts.

Import PyString Version.

Lemma rstrip_last (s : string) (c : ascii) :
  last_char (rstrip s) = Some c -> is_space c = false.
Proof.
  induction s as [|a s IH]; [discriminate|].
  rewrite rstrip_cons. destruct (rstrip s) as [|d r] eqn:Hr.
  - destruct (is_space a) eqn:Ha; [discriminate|]. simpl. intros [= <-]. exact Ha.
  - intros H. apply IH. exact H.
Qed.

Lemma rstrip_first (s : string) (c : ascii) :
  first_char s = Some c -> is_space c = false -> first_char (rstrip s) = Some c.
Proof.
  destruct s as [|a s]; [discriminate|]. intros H Hc.
  simpl in H. injection H as ->. rewrite rstrip_cons. destruct (rstrip s); [rewrite Hc|]; reflexivity.
Qed.

Lemma strip_trimmed (s : string) : trimmed (strip s).
Proof.
  unfold strip. pose proof (lstrip_head s) as Hhead. split.
  - destruct (lstrip s) as [|a t]; [discriminate|].
    rewrite (rstrip_first (String a t) a eq_refl Hhead).
    intros c [= <-]. exact Hhead.
  - intros c. apply rstrip_last.
Qed.

Lemma lstrip_spaces (a t : string) :
  all_space a = true -> lstrip (a +:+ t) = lstrip t.
Proof.
  induction a as [|c a IH]; [reflexivity|].
  intros H. simpl in H. apply andb_true_iff in H as [Hc Ha].
  rewrite string_app_cons. cbn [lstrip]. rewrite Hc. apply IH, Ha.
Qed.

Lemma rstrip_all_space (b : string) : all_space b = true -> rstrip b = "".
Proof.
  induction b as [|c b IH]; [reflexivity|]. simpl all_space.
  intros H. apply andb_true_iff in H as [Hc Hb].
  rewrite rstrip_cons, (IH Hb), Hc. reflexivity.
Qed.

Lemma rstrip_spaces (t b : string) :
  all_space b = true -> rstrip (t +:+ b) = rstrip t.
Proof.
  intros Hb. induction t as [|c t IH].
  - rewrite string_app_nil_l. apply rstrip_all_space, Hb.
  - rewrite string_app_cons, !rstrip_cons, IH. reflexivity.
Qed.

Lemma rstrip_trimmed (v : string) :
  (forall c, last_char v = Some c -> is_space c = false) -> rstrip v = v.
Proof.
  induction v as [|c v IH]; [reflexivity|]. intros Hlast.
  rewrite rstrip_cons. destruct v as [|d v].
  - simpl. rewrite (Hlast c eq_refl). reflexivity.
  - rewrite IH; [reflexivity|]. intros c' Hc'. apply Hlast. exact Hc'.
Qed.

Lemma strip_padded (before v after : string) :
  all_space before = true -> all_space after = true -> trimmed v ->
  strip (before +:+ v +:+ after) = v.
Proof.
  intros Hb Ha [Hfirst Hlast]. unfold strip. rewrite lstrip_spaces by exact Hb.
  destruct v as [|c v].
  - rewrite string_app_nil_l.
    assert (lstrip after = "") as ->; [|reflexivity].
    clear -Ha. induction after as [|c a IH]; [reflexivity|].
    simpl in *. apply andb_true_iff in Ha as [Hc Ha]. rewrite Hc. apply IH, Ha.
  - rewrite string_app_cons. simpl lstrip. rewrite (Hfirst c eq_refl).
    rewrite <- string_app_cons, rstrip_spaces by exact Ha.
    apply rstrip_trimmed, Hlast.
Qed.

Lemma drop_app (p r : string) : drop (String.length p) (p +:+ r) = r.
Proof. induction p as [|c p IH]; [reflexivity|]. rewrite string_app_cons. exact IH. Qed.

Lemma starts_with_app (p r : string) : starts_with p (p +:+ r) = true.
Proof.
  induction p as [|c p IH]; [reflexivity|].
  rewrite string_app_cons. simpl. rewrite Ascii.eqb_refl. exact IH.
Qed.

Lemma replace_leading (p r : string) :
  p <> "" -> contains p r = false -> replace (p +:+ r) p "" = r.
Proof.
  intros Hp Hr. unfold replace. destruct p as [|c q]; [congruence|].
  rewrite replace_go_found by first [discriminate | apply starts_with_app].
  rewrite drop_app, string_app_nil_l. apply replace_go_absent, Hr.
Qed.

Lemma tool_fails_as_documented (sys : System) (tool : string) :
  fails_as_documented sys tool (tool_version sys tool).
Proof.
  unfold fails_as_documented, tool_version. split.
  - intros f ->. reflexivity.
  - intros output ->. split.
    + intros text Hcode Hdecode.
      rewrite (proj2 (Z.eqb_neq _ _) Hcode), Hdecode. reflexivity.
    + intros version logged.
      destruct (Z.eqb (returncode output) 0) eqn:Hcode.
      * apply Z.eqb_eq in Hcode.
        destruct (decode_utf8 sys (stdout output)); intros [= <- <-].
        split; [discriminate|congruence].
      * apply Z.eqb_neq in Hcode.
        destruct (decode_utf8 sys (stderr output)); intros [= <- <-].
        split; auto.
Qed.

Lemma tool_reads_version (sys : System) (tool : string) :
  tool <> "" -> reads_version sys tool (tool_version sys tool).
Proof.
  intros Htool output before v after Hrun Hcode Hdecode Hb Ha Hv Hfree.
  unfold tool_version. rewrite Hrun, Hcode, Hdecode. simpl.
  rewrite replace_leading by assumption.
  rewrite strip_padded by assumption. reflexivity.
Qed.

End VersionFacts.

(** X25. Asking a program for its version fails in three ways, for
    kramdown-rfc2629 and for id2xml alike: an exception of starting the
    program is not caught; a non-zero exit status gives no version and one
    info line with the program's name and its standard error; and whenever
    a result comes back, it is no version exactly when the exit status was
    not zero. *)
Theorem version_failures (sys : Version.System) :
  Version.fails_as_documented sys "kramdown-rfc2629"
    (Version.get_kramdown_rfc2629_version sys)
  /\ Version.fails_as_documented sys "id2xml" (Version.get_id2xml_version sys).
Proof. split; apply tool_fails_as_documented. Qed.

Lemma version_failures_witness :
  Version.get_id2xml_version Version.sample_system
  = (inr None, [Log INFO "id2xml error: id2xml: not installed"]).
Proof.
  refine (proj1 (proj2 (proj2 (version_failures Version.sample_system))
                   {| Version.returncode := 1; Version.stdout := "";
                      Version.stderr := "id2xml: not installed" |} _)
            "id2xml: not installed" _ _).
  - reflexivity.
  - discriminate.
  - reflexivity.
Defined.

(** X26. A version that comes back has no whitespace at either end. *)
Theorem version_trimmed (sys : Version.System) (v : string) (logged : list event) :
  Version.get_kramdown_rfc2629_version sys = (inr (Some v), logged)
  \/ Version.get_id2xml_version sys = (inr (Some v), logged) ->
  Version.trimmed v.
Proof.
  unfold Version.get_kramdown_rfc2629_version, Version.get_id2xml_version,
    Version.tool_version.
  intros [H|H]; revert H;
    (destruct (Version.proc_run sys _) as [f|output]; [discriminate|]);
    (destruct (Z.eqb _ 0);
     [ destruct (Version.decode_utf8 sys (Version.stdout output));
       [|discriminate]
     | destruct (Version.decode_utf8 sys (Version.stderr output));
       discriminate ]);
    intros [= <- <-]; apply strip_trimmed.
Qed.

Lemma version_trimmed_witness : Version.trimmed "1.3.5".
Proof.
  apply (version_trimmed Version.sample_system "1.3.5" []).
  left. reflexivity.
Defined.

(** X27. When the program exits with status zero and prints its own name,
    blanks, a version without blanks around it and blanks, and its name does
    not occur again in what follows it, the version is what comes back and
    nothing is logged. *)
Theorem version_round_trip (sys : Version.System) :
  Version.reads_version sys "kramdown-rfc2629"
    (Version.get_kramdown_rfc2629_version sys)
  /\ Version.reads_version sys "id2xml" (Version.get_id2xml_version sys).
Proof. split; apply tool_reads_version; discriminate. Qed.

Lemma version_round_trip_witness :
  Version.get_kramdown_rfc2629_version Version.sample_system
  = (inr (Some "1.3.5"), []).
Proof.
  refine (proj1 (version_round_trip Version.sample_system)
            {| Version.returncode := 0;
               Version.stdout := "kramdown-rfc2629 1.3.5" +:+ String "010" EmptyString;
               Version.stderr := "" |}
            " " "1.3.5" (String "010" EmptyString) _ _ _ _ _ _ _).
  - reflexivity.
  - reflexivity.
  - reflexivity.
  - reflexivity.
  - reflexivity.
  - split; intros c [= <-]; reflexivity.
  - reflexivity.
Defined.
